(** * ManTraq: attendance, payroll and billing ledger

    A shallow embedding of the database functions of [app.py]
    ([check_in_attendance], [check_out_attendance], [calculate_salary],
    [register_client], [assign_employee_to_client], [record_installment])
    over an explicit model of the four SQLite tables, and the properties of
    the attendance / payroll / billing core.

    Conventions.
    - The database is threaded explicitly: every function takes the store
      and returns its result together with the new store.
    - [datetime.datetime.now()] and [get_geolocation()] are inputs of the
      functions that call them ([now], [location]).
    - SQLite [REAL] columns and Python [float]s are IEEE binary64 numbers.
      The functions are written once over an arithmetic interface [Arith]
      and read at two instances: [float] (the arithmetic the program runs
      on) and [Qc] (exact rationals, the arithmetic of the prose).
    - A [TEXT] column holding [datetime.isoformat()] output is modelled by
      the [datetime] it encodes; SQLite compares such strings bytewise,
      which is the lexicographic order [dt_compare] on the fields, see
      [isoformat_compare]. *)

From Stdlib Require Import ZArith Floats QArith Qcanon Lia Ascii String.
From stdpp Require Import gmap strings list sorting.

Set Default Proof Using "Type".
Set Warnings "-inexact-float".
Local Open Scope Z_scope.

(** ** Arithmetic *)

(** The operations the program applies to numbers. [of_int] is the
    coercion of a Python [int]; [div] applied to two coerced integers is
    Python's true division [a / b]. [num_eqb] and [num_leb] are [==] and
    [<=]. *)
Class Arith (R : Type) := {
  of_int : Z → R;
  add : R → R → R;
  sub : R → R → R;
  mul : R → R → R;
  div : R → R → R;
  num_eqb : R → R → bool;
  num_leb : R → R → bool
}.

(** The decimal literal [m] * 10^-[k], e.g. [dec 12 2] for [0.12]. The
    quotient of two integers that binary64 holds exactly is rounded once,
    so at [float] this is the binary64 value nearest to the literal. *)
Definition dec {R} `{Arith R} (m : Z) (k : nat) : R :=
  div (of_int m) (of_int (10 ^ Z.of_nat k)).

(** [int] to [float]. [of_uint63] rounds to nearest even; magnitudes from
    2^63 on, which no difference of two [datetime]s reaches, are outside
    the model. *)
Definition float_of_Z (z : Z) : float :=
  match z with
  | Z0 => 0%float
  | Zpos _ => of_uint63 (Uint63.of_Z z)
  | Zneg p => (- of_uint63 (Uint63.of_Z (Zpos p)))%float
  end.

#[export] Instance float_arith : Arith float := {|
  of_int := float_of_Z;
  add := PrimFloat.add;
  sub := PrimFloat.sub;
  mul := PrimFloat.mul;
  div := PrimFloat.div;
  num_eqb := PrimFloat.eqb;
  num_leb := PrimFloat.leb
|}.

#[export] Instance exact_arith : Arith Qc := {|
  of_int := λ z, Q2Qc (inject_Z z);
  add := Qcplus;
  sub := Qcminus;
  mul := Qcmult;
  div := Qcdiv;
  num_eqb := Qc_eq_bool;
  num_leb := λ x y, Qle_bool x y
|}.

(** ** Timestamps *)

(** A naive [datetime.datetime]. *)
Record datetime := mk_datetime {
  year : Z;
  month : Z;
  day : Z;
  hour : Z;
  minute : Z;
  second : Z;
  microsecond : Z
}.

#[export] Instance datetime_eq_dec : EqDecision datetime.
Proof. solve_decision. Defined.

Definition is_leap (y : Z) : bool :=
  (y mod 4 =? 0) && (negb (y mod 100 =? 0) || (y mod 400 =? 0)).

Definition days_in_month (y m : Z) : Z :=
  if m =? 2 then (if is_leap y then 29 else 28)
  else if (m =? 4) || (m =? 6) || (m =? 9) || (m =? 11) then 30
  else 31.

(** The values [datetime] accepts (MINYEAR = 1, MAXYEAR = 9999). *)
Definition dt_valid (d : datetime) : Prop :=
  1 ≤ year d ≤ 9999 ∧ 1 ≤ month d ≤ 12 ∧
  1 ≤ day d ≤ days_in_month (year d) (month d) ∧
  0 ≤ hour d < 24 ∧ 0 ≤ minute d < 60 ∧ 0 ≤ second d < 60 ∧
  0 ≤ microsecond d < 1000000.

(** The fields in the order [isoformat] prints them. *)
Definition dt_fields (d : datetime) : list Z :=
  [year d; month d; day d; hour d; minute d; second d; microsecond d].

Fixpoint lex_compare (a b : list Z) : comparison :=
  match a, b with
  | [], [] => Eq
  | [], _ :: _ => Lt
  | _ :: _, [] => Gt
  | x :: a', y :: b' =>
      match x ?= y with
      | Eq => lex_compare a' b'
      | c => c
      end
  end.

(** Comparison of two stored timestamps: the bytewise comparison SQLite
    applies to the two [isoformat] strings decides at the first field that
    differs. *)
Definition dt_compare (a b : datetime) : comparison :=
  lex_compare (dt_fields a) (dt_fields b).

Definition dt_leb (a b : datetime) : bool :=
  match dt_compare a b with Gt => false | _ => true end.

Definition dt_ltb (a b : datetime) : bool :=
  match dt_compare a b with Lt => true | _ => false end.

(** The character of a decimal digit. *)
Definition digit_char (d : Z) : ascii := ascii_of_N (48 + Z.to_N d).

(** [x] printed with [n] decimal digits, zero-padded ([%0nd]). *)
Fixpoint pad (n : nat) (x : Z) : string :=
  match n with
  | O => ""
  | S k =>
      String (digit_char (x / 10 ^ Z.of_nat k))
        (pad k (x mod 10 ^ Z.of_nat k))
  end.

(** [datetime.isoformat()]: [YYYY-MM-DDTHH:MM:SS], followed by [.ffffff]
    when the microsecond is not 0. *)
Definition isoformat (d : datetime) : string :=
  pad 4 (year d) +:+ "-" +:+ pad 2 (month d) +:+ "-" +:+ pad 2 (day d) +:+
  "T" +:+ pad 2 (hour d) +:+ ":" +:+ pad 2 (minute d) +:+ ":" +:+
  pad 2 (second d) +:+
  (if microsecond d =? 0 then "" else "." +:+ pad 6 (microsecond d)).

(** [datetime.toordinal]: day number in the proleptic Gregorian calendar. *)
Definition days_before_year (y : Z) : Z :=
  let y' := y - 1 in y' * 365 + y' / 4 - y' / 100 + y' / 400.

Definition days_before_month (y m : Z) : Z :=
  nth (Z.to_nat m)
      [0; 0; 31; 59; 90; 120; 151; 181; 212; 243; 273; 304; 334] 0
  + (if (2 <? m) && is_leap y then 1 else 0).

Definition toordinal (d : datetime) : Z :=
  days_before_year (year d) + days_before_month (year d) (month d) + day d.

(** [a - b] as a [timedelta], held as its total number of microseconds. *)
Definition dt_sub_us (a b : datetime) : Z :=
  ((toordinal a - toordinal b) * 86400
   + ((second a + minute a * 60 + hour a * 3600)
      - (second b + minute b * 60 + hour b * 3600))) * 1000000
  + (microsecond a - microsecond b).

(** [timedelta.total_seconds()]: the microseconds over 10^6, in true
    division. *)
Definition total_seconds {R} `{Arith R} (us : Z) : R :=
  div (of_int us) (of_int 1000000).

(** ** Tables *)

(** What Python raises out of the modelled functions. *)
Inductive exn := IntegrityError.

Inductive outcome (A : Type) :=
  | Returned (a : A)
  | Raised (e : exn).
Arguments Returned {A} a.
Arguments Raised {A} e.

Definition blob := list Byte.byte.

Section Store.
Context {R : Type}.

(** [employees], keyed by [employee_id TEXT PRIMARY KEY]. The default
    argument [None] of [employee.get] is the [NULL] of the two nullable
    columns. *)
Record employee_row := mk_employee {
  full_name : string;
  contact_number : string;
  email : string;
  aadhar : string;
  dob : string;
  address : string;
  photo : option blob;
  aadhar_photo : option blob;
  signature_photo : option blob;
  role : string;
  password : string;
  assigned_client_id : option string;
  rate_per_hour : option R
}.

(** [attendance], in rowid order. The last three columns are [NULL]
    while the session is open. *)
Record attendance_row := mk_attendance {
  att_id : Z;
  att_employee_id : string;
  check_in_time : datetime;
  check_in_location : option string;
  check_in_selfie : blob;
  check_out_time : option datetime;
  check_out_location : option string;
  working_hours : option R
}.

(** [clients], keyed by [client_id TEXT PRIMARY KEY]. *)
Record client_row := mk_client {
  org_name : string;
  description : string;
  requirements : string;
  company_contact : string;
  company_email : string;
  person_in_charge_name : string;
  person_in_charge_phone : string;
  person_in_charge_email : string;
  company_type : string;
  total_bill : R;
  outstanding : R
}.

(** [installments], in rowid order. *)
Record installment_row := mk_installment {
  ins_id : Z;
  ins_client_id : string;
  amount_paid : R;
  timestamp : datetime
}.

Record database := mk_database {
  employees : gmap string employee_row;
  attendance : list attendance_row;
  clients : gmap string client_row;
  installments : list installment_row
}.

(** The dict [register_client] receives from the form: the client id and
    the columns, with [total_bill] and no [outstanding]. *)
Record client_form := mk_client_form {
  form_client_id : string;
  form_org_name : string;
  form_description : string;
  form_requirements : string;
  form_company_contact : string;
  form_company_email : string;
  form_person_in_charge_name : string;
  form_person_in_charge_phone : string;
  form_person_in_charge_email : string;
  form_company_type : string;
  form_total_bill : R
}.

(** The dict [calculate_salary] returns. *)
Record salary := mk_salary {
  total_hours : R;
  base_salary : R;
  retirement_benefits1 : R;
  retirement_benefits2 : R;
  insurance1 : R;
  insurance2 : R;
  actual_salary : R
}.

Definition set_attendance (t : list attendance_row) (db : database) :=
  mk_database (employees db) t (clients db) (installments db).

Definition set_clients (t : gmap string client_row) (db : database) :=
  mk_database (employees db) (attendance db) t (installments db).

Definition set_installments (t : list installment_row) (db : database) :=
  mk_database (employees db) (attendance db) (clients db) t.

Definition set_employees (t : gmap string employee_row) (db : database) :=
  mk_database t (attendance db) (clients db) (installments db).

(** The store after [init_db] on a fresh file: four empty tables. *)
Definition init_db : database := mk_database ∅ [] ∅ [].

(** [INTEGER PRIMARY KEY AUTOINCREMENT]: one more than the largest rowid
    (no row is ever deleted). *)
Definition next_rowid (ids : list Z) : Z := 1 + foldr Z.max 0 ids.

(** An open session: [check_out_time IS NULL]. *)
Definition is_open (r : attendance_row) : Prop := check_out_time r = None.

#[export] Instance is_open_dec r : Decision (is_open r).
Proof. unfold is_open. destruct (check_out_time r); [right|left]; done. Defined.

(** [WHERE employee_id = ? AND check_out_time IS NULL] *)
Definition open_sessions (employee_id : string)
    (t : list attendance_row) : list attendance_row :=
  filter (λ r, att_employee_id r = employee_id ∧ is_open r) t.

(** [ORDER BY check_in_time DESC]: later check-in first. *)
Definition check_in_desc (a b : attendance_row) : Prop :=
  dt_leb (check_in_time b) (check_in_time a).

Definition order_by_check_in_desc
    (t : list attendance_row) : list attendance_row :=
  merge_sort check_in_desc t.

(** [UPDATE attendance SET check_out_time = ?, check_out_location = ?,
    working_hours = ? WHERE id = ?] *)
Definition close_row (t : datetime) (location : option string) (h : R)
    (r : attendance_row) : attendance_row :=
  mk_attendance (att_id r) (att_employee_id r) (check_in_time r)
    (check_in_location r) (check_in_selfie r) (Some t) location (Some h).

Definition update_attendance (id : Z) (t : datetime)
    (location : option string) (h : R)
    (rows : list attendance_row) : list attendance_row :=
  (λ r, if decide (att_id r = id) then close_row t location h r else r)
    <$> rows.

Definition set_outstanding (x : R) (c : client_row) : client_row :=
  mk_client (org_name c) (description c) (requirements c)
    (company_contact c) (company_email c) (person_in_charge_name c)
    (person_in_charge_phone c) (person_in_charge_email c)
    (company_type c) (total_bill c) x.

Definition set_assignment (client_id : string) (rate : R)
    (e : employee_row) : employee_row :=
  mk_employee (full_name e) (contact_number e) (email e) (aadhar e)
    (dob e) (address e) (photo e) (aadhar_photo e) (signature_photo e)
    (role e) (password e) (Some client_id) (Some rate).

(** ** Attendance module *)

Definition check_in_attendance (now : datetime) (location : option string)
    (employee_id : string) (selfie_bytes : blob)
    (db : database) : string * database :=
  let check_in_time := isoformat now in
  let row :=
    mk_attendance (next_rowid (att_id <$> attendance db)) employee_id
      now location selfie_bytes None None None in
  (check_in_time, set_attendance (attendance db ++ [row]) db).

Context `{Arith R}.

(** [(check_out_time - check_in_time).total_seconds() / 3600.0] *)
Definition hours_between (check_out check_in : datetime) : R :=
  div (total_seconds (dt_sub_us check_out check_in)) (of_int 3600).

Definition check_out_attendance (now : datetime)
    (location : option string) (employee_id : string)
    (db : database) : (option R * string) * database :=
  let record :=
    head (order_by_check_in_desc
            (open_sessions employee_id (attendance db))) in
  match record with
  | None =>
      ((None, "No check-in record found. Please check in first."), db)
  | Some record =>
      let check_out_time := now in
      let check_out_location := location in
      let hours := hours_between check_out_time (check_in_time record) in
      ((Some hours, isoformat check_out_time),
       set_attendance
         (update_attendance (att_id record) check_out_time
            check_out_location hours (attendance db)) db)
  end.

(** ** Salary module *)

(** [datetime.datetime(now.year, now.month, 1)] *)
Definition start_month (now : datetime) : datetime :=
  mk_datetime (year now) (month now) 1 0 0 0 0.

(** SQL [SUM]: [NULL] over no non-[NULL] value, else the values added
    one after the other to a zero accumulator. *)
Definition sql_sum (vals : list (option R)) : option R :=
  match omap id vals with
  | [] => None
  | xs => Some (foldl add (of_int 0) xs)
  end.

(** [WHERE employee_id = ? AND check_out_time IS NOT NULL AND
    check_in_time >= ?] *)
Definition closed_since (employee_id : string) (since : datetime)
    (t : list attendance_row) : list attendance_row :=
  filter (λ r, att_employee_id r = employee_id ∧ ¬ is_open r ∧
               dt_leb since (check_in_time r)) t.

Definition calculate_salary (now : datetime) (employee_id : string)
    (db : database) : option salary :=
  match employees db !! employee_id with
  | None => None
  | Some result =>
      match rate_per_hour result with
      | None => None
      | Some rate =>
          let hours :=
            match sql_sum (working_hours <$>
                    closed_since employee_id (start_month now)
                      (attendance db)) with
            | Some h => h
            | None => of_int 0
            end in
          let base := mul rate hours in
          let rb1 := mul (dec 12 2) base in
          let rb2 := mul (dec 13 2) base in
          let ins1 := mul (dec 5 2) base in
          let ins2 := mul (dec 5 2) base in
          let actual := sub base (add rb1 ins1) in
          Some (mk_salary hours base rb1 rb2 ins1 ins2 actual)
      end
  end.

(** The value of [total_hours]: the [SUM] over the selected rows, or [0]
    when it is [NULL]. *)
Definition month_hours (now : datetime) (employee_id : string)
    (db : database) : R :=
  default (of_int 0)
    (sql_sum (working_hours <$>
                closed_since employee_id (start_month now) (attendance db))).

(** The period of the specification, [periodStart, periodEnd): closed
    sessions of the employee that checked in at or after [since] and
    before [until]. Stated from the specification, for comparison with
    [closed_since]. *)
Definition closed_in_period (employee_id : string) (since until : datetime)
    (t : list attendance_row) : list attendance_row :=
  filter (λ r, att_employee_id r = employee_id ∧ ¬ is_open r ∧
               dt_leb since (check_in_time r) ∧
               dt_ltb (check_in_time r) until) t.

(** ** Client module *)

(** The [INSERT] violates the primary key when the id is taken: sqlite3
    raises and nothing is committed. *)
Definition register_client (client : client_form)
    (db : database) : outcome unit * database :=
  match clients db !! form_client_id client with
  | Some _ => (Raised IntegrityError, db)
  | None =>
      let row :=
        mk_client (form_org_name client) (form_description client)
          (form_requirements client) (form_company_contact client)
          (form_company_email client)
          (form_person_in_charge_name client)
          (form_person_in_charge_phone client)
          (form_person_in_charge_email client)
          (form_company_type client)
          (form_total_bill client) (form_total_bill client) in
      (Returned (),
       set_clients (<[form_client_id client := row]> (clients db)) db)
  end.

Definition assign_employee_to_client (employee_id client_id : string)
    (rate : R) (db : database) : database :=
  set_employees
    (alter (set_assignment client_id rate) employee_id (employees db)) db.

(** The function has no [return]: its value is [None] on every path. *)
Definition record_installment (now : datetime) (client_id : string)
    (amount : R) (db : database) : unit * database :=
  let timestamp := now in
  let row :=
    mk_installment (next_rowid (ins_id <$> installments db)) client_id
      amount timestamp in
  let db1 := set_installments (installments db ++ [row]) db in
  match clients db1 !! client_id with
  | Some result =>
      let new_outstanding := sub (outstanding result) amount in
      ((), set_clients
             (alter (set_outstanding new_outstanding) client_id
                (clients db1)) db1)
  | None => ((), db1)
  end.

(** Python's [sum(amounts)]: the amounts added to [0] from the left. *)
Definition sum_amounts (amounts : list R) : R :=
  foldl add (of_int 0) amounts.

(** [record_installment] called once per payment, in order, each call at
    its own clock reading. *)
Definition record_installments (calls : list (datetime * R))
    (client_id : string) (db : database) : database :=
  foldl (λ db call, (record_installment call.1 client_id call.2 db).2)
    db calls.

End Store.

Arguments employee_row : clear implicits.
Arguments attendance_row : clear implicits.
Arguments client_row : clear implicits.
Arguments installment_row : clear implicits.
Arguments database : clear implicits.
Arguments client_form : clear implicits.
Arguments salary : clear implicits.


(** ** Binary64 zeros *)

(** [x] is one of the two zeros of binary64. *)
Definition fzero (x : float) : Prop := ∃ s, Prim2SF x = S754_zero s.

(** [x] is not NaN and carries no minus sign, or is a zero: the values
    with [0 <= x]. *)
Definition SFnonneg (x : spec_float) : Prop :=
  match x with
  | S754_zero _ | S754_infinity false | S754_finite false _ _ => True
  | _ => False
  end.

(** The rational number a finite binary64 value stands for (0 for the
    infinities and NaN). *)
Definition float_to_Q (x : float) : Q :=
  match Prim2SF x with
  | S754_finite s m e =>
      let v := if s then Z.neg m else Z.pos m in
      match e with
      | Z.neg p => v # Pos.pow 2 p
      | _ => inject_Z (v * 2 ^ e)
      end
  | _ => 0%Q
  end.

(** [P] holds of the [n] integers from [z] on. *)
Fixpoint all_from (P : Z → bool) (z : Z) (n : nat) : bool :=
  match n with
  | O => true
  | S k => P z && all_from P (z + 1) k
  end.

(** ** A sample store

    Employee E1 is paid 100 per hour and E2 has no rate. E1 worked a closed
    session of two and a half hours and holds two open sessions (rows 2 and
    4); client C1 owes its whole bill of 5000. *)

Definition at_time (d h m : Z) : datetime := mk_datetime 2026 11 d h m 0 0.

Definition sample_employee {R} (rate : option R) : employee_row R :=
  mk_employee "Asha Rao" "" "" "" "1990-01-01" "" None None None
    "Employee" "secret" None rate.

Definition sample_client {R} (bill : R) : client_row R :=
  mk_client "Acme" "" "" "" "" "" "" "" "GEM" bill bill.

Definition sample_attendance {R} `{Arith R} : list (attendance_row R) :=
  [ mk_attendance 1 "E1" (at_time 3 9 0) None [] (Some (at_time 3 11 30))
      None (Some (dec 25 1));
    mk_attendance 2 "E1" (at_time 3 13 0) None [] None None None;
    mk_attendance 3 "E2" (at_time 3 14 0) None [] None None None;
    mk_attendance 4 "E1" (at_time 3 16 0) None [] None None None ].

Definition sample_db {R} `{Arith R} : database R :=
  mk_database
    (<["E1" := sample_employee (Some (of_int 100))]>
       (<["E2" := sample_employee None]> ∅))
    sample_attendance
    (<["C1" := sample_client (of_int 5000)]> ∅)
    [].

(** The sample store over binary64. *)
Definition float_db : database float := sample_db.

(** A client billed 5000.10 (for the rounding examples). *)
Definition cents_db : database float :=
  mk_database ∅ [] (<["C1" := sample_client 5000.1%float]> ∅) [].

(** An employee paid 1 per hour with one closed session of one hour. *)
Definition unit_rate_db : database float :=
  mk_database (<["E1" := sample_employee (Some 1%float)]> ∅)
    [ mk_attendance 1 "E1" (at_time 3 9 0) None [] (Some (at_time 3 10 0))
        None (Some 1%float) ]
    ∅ [].

(** * The rest of the database functions and their callers *)

(** A [TypeError]: what subscripting [None] raises. *)
Inductive type_error := TypeError.

Section Modules.
Context {R : Type} `{Arith R}.

(** ** Well-formed attendance tables

    The row ids are distinct, and a row is open exactly when it has no
    working hours. *)
Definition attendance_wf (t : list (attendance_row R)) : Prop :=
  NoDup (att_id <$> t) ∧
  Forall (λ r, is_open r ↔ working_hours r = None) t.

(** ** Employee module *)

(** The dict [register_employee] receives. The last two keys are read
    with [employee.get(key, None)]: a missing key is [None]. *)
Record employee_form := mk_employee_form {
  form_employee_id : string;
  form_full_name : string;
  form_contact_number : string;
  form_email : string;
  form_aadhar : string;
  form_dob : string;
  form_address : string;
  form_photo : option blob;
  form_aadhar_photo : option blob;
  form_signature_photo : option blob;
  form_role : string;
  form_password : string;
  form_assigned_client_id : option string;
  form_rate_per_hour : option R
}.

Definition employee_of_form (employee : employee_form) : employee_row R :=
  mk_employee (form_full_name employee) (form_contact_number employee)
    (form_email employee) (form_aadhar employee) (form_dob employee)
    (form_address employee) (form_photo employee)
    (form_aadhar_photo employee) (form_signature_photo employee)
    (form_role employee) (form_password employee)
    (form_assigned_client_id employee) (form_rate_per_hour employee).

(** The [INSERT] violates the primary key when the id is taken. *)
Definition register_employee (employee : employee_form)
    (db : database R) : outcome unit * database R :=
  match employees db !! form_employee_id employee with
  | Some _ => (Raised IntegrityError, db)
  | None =>
      (Returned (),
       set_employees
         (<[form_employee_id employee := employee_of_form employee]>
            (employees db)) db)
  end.

(** [SELECT * FROM employees WHERE employee_id = ? AND password = ?]: the
    row with its key, or [None]. *)
Definition login_employee (employee_id pw : string)
    (db : database R) : option (string * employee_row R) :=
  match employees db !! employee_id with
  | Some employee =>
      if decide (password employee = pw) then Some (employee_id, employee)
      else None
  | None => None
  end.

(** The employee record and the attendance rows of the employee. *)
Definition get_employee_profile (employee_id : string) (db : database R)
    : option (employee_row R) * list (attendance_row R) :=
  (employees db !! employee_id,
   filter (λ r, att_employee_id r = employee_id) (attendance db)).

(** ** Client module *)

(** The client record, its installments, and the employees assigned to it
    (a [SELECT] without [ORDER BY]: the rows as a finite map by key). *)
Definition get_client_profile (client_id : string) (db : database R)
    : option (client_row R) * list (installment_row R)
      * gmap string (employee_row R) :=
  (clients db !! client_id,
   filter (λ i, ins_client_id i = client_id) (installments db),
   filter (λ kv, assigned_client_id kv.2 = Some client_id) (employees db)).

(** The ledger is consistent: the outstanding balance of every client is
    its bill with the amounts of its installments subtracted in the order
    in which they were recorded. *)
Definition ledger_ok (db : database R) : Prop :=
  ∀ c cl, clients db !! c = Some cl →
    outstanding cl =
    foldl sub (total_bill cl)
      (amount_paid <$> filter (λ i, ins_client_id i = c) (installments db)).

(** ** Financial summary *)

(** Python's truth value of a number: false for a zero only. *)
Definition truthy (x : R) : bool := negb (num_eqb x (of_int 0)).

(** [x or 0] for a nullable number. *)
Definition or_zero (x : option R) : R :=
  match x with
  | Some v => if truthy v then v else of_int 0
  | None => of_int 0
  end.

(** [WHERE check_out_time IS NOT NULL AND check_in_time >= ?] *)
Definition closed_rows_since (since : datetime)
    (t : list (attendance_row R)) : list (attendance_row R) :=
  filter (λ r, ¬ is_open r ∧ dt_leb since (check_in_time r)) t.

(** [SELECT employee_id, SUM(working_hours) ... GROUP BY employee_id]: one
    row per employee id of the selection, here in the order in which the
    ids first occur. *)
Definition hours_by_employee (since : datetime)
    (t : list (attendance_row R)) : list (string * option R) :=
  let rows := closed_rows_since since t in
  (λ e, (e, sql_sum (working_hours <$>
                       filter (λ r, att_employee_id r = e) rows)))
    <$> remove_dups (att_employee_id <$> rows).

(** One turn of the loop over [salary_data]. [fetchone()] is [None] for
    an id that is not in [employees], and subscripting it raises. *)
Definition add_salary (db : database R)
    (total : type_error + R) (row : string * option R) : type_error + R :=
  match total with
  | inl e => inl e
  | inr total_salary =>
      match employees db !! row.1 with
      | None => inl TypeError
      | Some employee =>
          match rate_per_hour employee with
          | Some rate =>
              if truthy rate
              then inr (add total_salary (mul rate (or_zero row.2)))
              else inr total_salary
          | None => inr total_salary
          end
      end
  end.

(** The clients are summed in the order of [map_to_list]; the order in
    which SQLite visits them is not part of the model. *)
Definition get_financial_summary (now : datetime)
    (db : database R) : type_error + (R * R) :=
  let total_outstanding :=
    or_zero (sql_sum ((λ kv, Some (outstanding kv.2))
                        <$> map_to_list (clients db))) in
  match foldl (add_salary db) (inr (of_int 0))
          (hours_by_employee (start_month now) (attendance db)) with
  | inl e => inl e
  | inr total_salary => inr (total_outstanding, total_salary)
  end.

(** What an employee adds to the salary total, read off
    [calculate_salary]: the rate times [total_hours] (a zero total taken
    as 0) when the rate is not zero. *)
Definition add_month_salary (now : datetime) (db : database R)
    (total : R) (employee_id : string) : R :=
  match calculate_salary now employee_id db,
        employees db !! employee_id ≫= rate_per_hour with
  | Some s, Some rate =>
      if truthy rate
      then add total (mul rate (or_zero (Some (total_hours s))))
      else total
  | _, _ => total
  end.

(** ** The page "View All Attendance" *)

(** A row of the join of [attendance] with [employees]. *)
Record attendance_view := mk_attendance_view {
  view_employee_id : string;
  view_full_name : string;
  view_check_in_time : datetime;
  view_check_in_location : option string;
  view_check_out_time : option datetime;
  view_check_out_location : option string;
  view_working_hours : option R
}.

(** [FROM attendance a JOIN employees e ON a.employee_id = e.employee_id] *)
Definition join_employee (db : database R)
    (a : attendance_row R) : option attendance_view :=
  e ← employees db !! att_employee_id a;
  Some (mk_attendance_view (att_employee_id a) (full_name e)
          (check_in_time a) (check_in_location a) (check_out_time a)
          (check_out_location a) (working_hours a)).

Definition view_desc (a b : attendance_view) : Prop :=
  dt_leb (view_check_in_time b) (view_check_in_time a).

(** The records of the page: the join, [ORDER BY a.check_in_time DESC]. *)
Definition view_all_attendance (db : database R) : list attendance_view :=
  merge_sort view_desc (omap (join_employee db) (attendance db)).

(** ** The pages of [main] *)

(** [st.session_state] as the script leaves it: [logged_in] false and no
    other key, or [logged_in] true with [employee_id] and [role]. *)
Inductive session :=
  | LoggedOut
  | LoggedIn (employee_id role : string).

Definition ceo_menu : list string :=
  ["Dashboard"; "Register Employee"; "Register Client"; "Assign Employee";
   "Search Employee"; "Search Client"; "Financial Plots";
   "View All Attendance"; "NLP mode (Upcoming)"; "Logout"].

(** The entries of the sidebar, among which [choice] is taken. *)
Definition menu (s : session) : list string :=
  match s with
  | LoggedOut => ["Login"]
  | LoggedIn _ role =>
      if decide (role = "CEO") then ceo_menu else ["Profile"; "Logout"]
  end.

Inductive login_message :=
  | LoggedInAs (full_name : string)
  | InvalidCredentials.

(** The button of the page "Login". *)
Definition login_page (employee_id pw : string) (db : database R)
    (s : session) : session * login_message :=
  match login_employee employee_id pw db with
  | Some (id, employee) =>
      (LoggedIn id (role employee), LoggedInAs (full_name employee))
  | None => (s, InvalidCredentials)
  end.

(** The page "Logout". *)
Definition logout_page (s : session) : session := LoggedOut.

(** What a page shows: [st.write(label, value)],
    [st.write(label, round(x, 2))] and [st.image(..., caption=...)]. *)
Inductive ui_event :=
  | Write (label value : string)
  | WriteRounded (label : string) (x : R)
  | Image (caption : string).

(** [employee["assigned_client_id"] if employee["assigned_client_id"]
    else "None"] *)
Definition assigned_client_text (employee : employee_row R) : string :=
  match assigned_client_id employee with
  | Some c => if decide (c = "") then "None" else c
  | None => "None"
  end.

(** The truth value of a nullable [BLOB]. *)
Definition has_bytes (b : option blob) : bool :=
  match b with
  | Some (_ :: _) => true
  | _ => false
  end.

(** The page "Profile" from [salary = calculate_salary(...)] to the last
    salary line: what is shown, and the [TypeError] of [salary[...]] on
    [None] if it is reached. The images are taken to load. *)
Definition profile_salary_section (employee : employee_row R)
    (salary : option (salary R)) : list ui_event * option type_error :=
  let assigned :=
    match salary with
    | Some _ => [Write "**Assigned Client:**" (assigned_client_text employee)]
    | None => []
    end in
  let photo :=
    if has_bytes (photo employee) then [Image "Photo"] else [] in
  let aadhar_photo :=
    if has_bytes (aadhar_photo employee) then [Image "Aadhar Card"]
    else [] in
  let shown := assigned ++ photo ++ aadhar_photo in
  if has_bytes (signature_photo employee) then
    match salary with
    | Some s =>
        (shown ++
         [Image "Signature";
          WriteRounded "**Base Salary:**" (base_salary s);
          WriteRounded "**Retirement Benefit 1 (12%):**"
            (retirement_benefits1 s);
          WriteRounded "**Retirement Benefit 2 (13%):**"
            (retirement_benefits2 s);
          WriteRounded "**Insurance 1 (5%):**" (insurance1 s);
          WriteRounded "**Insurance 2 (5%):**" (insurance2 s);
          WriteRounded "**Actual Salary:**" (actual_salary s)], None)
    | None => (shown ++ [Image "Signature"], Some TypeError)
    end
  else (shown, None).

(** ** The bootstrap script [init_ceo.py] *)

(** The files of the disk, by path. *)
Definition read_file_as_bytes (fs : gmap string blob)
    (filepath : string) : option blob :=
  if decide (filepath = "") then None else fs !! filepath.

(** The answers typed at the prompts, after [strip()]. *)
Record ceo_answers := mk_ceo_answers {
  ceo_employee_id : string;
  ceo_full_name : string;
  ceo_contact_number : string;
  ceo_email : string;
  ceo_aadhar : string;
  ceo_dob : string;
  ceo_address : string;
  ceo_photo_path : string;
  ceo_aadhar_photo_path : string;
  ceo_signature_photo_path : string;
  ceo_password : string
}.

(** What [register_ceo] prints last. *)
Inductive ceo_message :=
  | CeoRegistered
  | CeoError (e : exn).

(** The role is fixed to CEO and the client and rate to [None]; an
    exception of the [INSERT] is caught and printed. *)
Definition register_ceo (fs : gmap string blob) (a : ceo_answers)
    (db : database R) : ceo_message * database R :=
  let photo_bytes := read_file_as_bytes fs (ceo_photo_path a) in
  let aadhar_photo_bytes := read_file_as_bytes fs (ceo_aadhar_photo_path a) in
  let signature_photo_bytes :=
    read_file_as_bytes fs (ceo_signature_photo_path a) in
  match employees db !! ceo_employee_id a with
  | Some _ => (CeoError IntegrityError, db)
  | None =>
      (CeoRegistered,
       set_employees
         (<[ceo_employee_id a :=
              mk_employee (ceo_full_name a) (ceo_contact_number a)
                (ceo_email a) (ceo_aadhar a) (ceo_dob a) (ceo_address a)
                photo_bytes aadhar_photo_bytes signature_photo_bytes
                "CEO" (ceo_password a) None None]>
            (employees db)) db)
  end.

End Modules.

Arguments employee_form : clear implicits.
Arguments attendance_view : clear implicits.
Arguments ui_event : clear implicits.
(** * The order of stored timestamps *)

Lemma lex_compare_refl a : lex_compare a a = Eq.
Proof. induction a as [|x a IH]; simpl; [done|]. by rewrite Z.compare_refl. Qed.

Lemma lex_compare_antisym a b : lex_compare b a = CompOpp (lex_compare a b).
Proof.
  revert b; induction a as [|x a IH]; intros [|y b]; simpl; try done.
  rewrite (Z.compare_antisym x y).
  destruct (x ?= y); simpl; auto.
Qed.

Lemma lex_compare_trans a b c :
  lex_compare a b ≠ Gt → lex_compare b c ≠ Gt → lex_compare a c ≠ Gt.
Proof.
  revert b c; induction a as [|x a IH]; intros [|y b] [|z c]; simpl; try done.
  destruct (Z.compare_spec x y), (Z.compare_spec y z);
    destruct (Z.compare_spec x z); try done; try lia; eauto.
Qed.

Lemma lex_compare_eq a b :
  length a = length b → lex_compare a b = Eq → a = b.
Proof.
  revert b; induction a as [|x a IH]; intros [|y b]; simpl; try done.
  intros Hlen. destruct (Z.compare_spec x y); try done.
  intros Heq. f_equal; [done|]. apply IH; [lia|done].
Qed.

Lemma dt_leb_refl a : dt_leb a a.
Proof. unfold dt_leb, dt_compare. by rewrite lex_compare_refl. Qed.

Lemma dt_leb_total a b : dt_leb a b ∨ dt_leb b a.
Proof.
  unfold dt_leb, dt_compare.
  rewrite (lex_compare_antisym (dt_fields a) (dt_fields b)).
  destruct (lex_compare _ _); simpl; auto.
Qed.

Lemma dt_leb_trans a b c : dt_leb a b → dt_leb b c → dt_leb a c.
Proof.
  unfold dt_leb, dt_compare. intros Hab Hbc.
  pose proof (lex_compare_trans (dt_fields a) (dt_fields b) (dt_fields c))
    as Ht.
  destruct (lex_compare (dt_fields a) (dt_fields b)); try done;
    destruct (lex_compare (dt_fields b) (dt_fields c)); try done;
    destruct (lex_compare (dt_fields a) (dt_fields c)); try done;
    exfalso; by apply Ht.
Qed.

Lemma dt_leb_antisym a b : dt_leb a b → dt_leb b a → a = b.
Proof.
  unfold dt_leb, dt_compare.
  rewrite (lex_compare_antisym (dt_fields a) (dt_fields b)).
  destruct (lex_compare (dt_fields a) (dt_fields b)) eqn:Hc; try done.
  intros _ _. apply lex_compare_eq in Hc; [|done].
  destruct a, b; simpl in *. by simplify_eq.
Qed.

Lemma dt_ltb_leb a b : dt_ltb a b = negb (dt_leb b a).
Proof.
  unfold dt_ltb, dt_leb, dt_compare.
  rewrite (lex_compare_antisym (dt_fields a) (dt_fields b)).
  by destruct (lex_compare _ _).
Qed.

(** ** The stored strings *)

Example isoformat_example :
  isoformat (mk_datetime 2026 11 3 9 5 0 0) = "2026-11-03T09:05:00" ∧
  isoformat (mk_datetime 987 1 31 23 59 59 1200) = "0987-01-31T23:59:59.001200".
Proof. split; vm_compute; reflexivity. Qed.

Lemma digit_char_compare a b :
  0 ≤ a < 10 → 0 ≤ b < 10 →
  Ascii.compare (digit_char a) (digit_char b) = (a ?= b).
Proof.
  intros Ha Hb.
  assert (a = 0 ∨ a = 1 ∨ a = 2 ∨ a = 3 ∨ a = 4 ∨ a = 5 ∨ a = 6 ∨ a = 7 ∨
          a = 8 ∨ a = 9) as Ha' by lia.
  assert (b = 0 ∨ b = 1 ∨ b = 2 ∨ b = 3 ∨ b = 4 ∨ b = 5 ∨ b = 6 ∨ b = 7 ∨
          b = 8 ∨ b = 9) as Hb' by lia.
  repeat destruct Ha' as [->|Ha']; try subst a;
    repeat destruct Hb' as [->|Hb']; try subst b; reflexivity.
Qed.

Lemma append_String c s t : String c s +:+ t = String c (s +:+ t).
Proof. reflexivity. Qed.

Lemma append_empty_r s : s +:+ "" = s.
Proof. induction s as [|c s IH]; [done|]. rewrite append_String. by f_equal. Qed.

Lemma compare_String c1 c2 s1 s2 :
  String.compare (String c1 s1) (String c2 s2) =
  match Ascii.compare c1 c2 with
  | Eq => String.compare s1 s2
  | ne => ne
  end.
Proof. reflexivity. Qed.

Lemma pad_compare n x y s t :
  0 ≤ x < 10 ^ Z.of_nat n → 0 ≤ y < 10 ^ Z.of_nat n →
  String.compare (pad n x +:+ s) (pad n y +:+ t) =
  match x ?= y with Eq => String.compare s t | c => c end.
Proof.
  revert x y. induction n as [|k IH]; intros x y Hx Hy.
  - simpl in *. assert (x = 0) as -> by lia. by assert (y = 0) as -> by lia.
  - rewrite Nat2Z.inj_succ, Z.pow_succ_r in Hx, Hy by lia.
    cbn [pad]. rewrite !append_String, compare_String.
    set (p := 10 ^ Z.of_nat k) in *.
    assert (0 < p) as Hp by (apply Z.pow_pos_nonneg; lia).
    pose proof (Z.div_mod x p ltac:(lia)) as Hdx.
    pose proof (Z.div_mod y p ltac:(lia)) as Hdy.
    pose proof (Z.mod_pos_bound x p Hp) as Hmx.
    pose proof (Z.mod_pos_bound y p Hp) as Hmy.
    assert (0 ≤ x / p < 10) as Hqx
      by (split; [apply Z.div_pos; lia | apply Z.div_lt_upper_bound; lia]).
    assert (0 ≤ y / p < 10) as Hqy
      by (split; [apply Z.div_pos; lia | apply Z.div_lt_upper_bound; lia]).
    rewrite digit_char_compare by done.
    rewrite (IH (x mod p) (y mod p)) by done.
    destruct (Z.compare_spec (x / p) (y / p)) as [Hq|Hq|Hq].
    + rewrite Hq in Hdx.
      destruct (Z.compare_spec (x mod p) (y mod p)),
        (Z.compare_spec x y); try done; nia.
    + destruct (Z.compare_spec x y); try done; nia.
    + destruct (Z.compare_spec x y); try done; nia.
Qed.

Lemma sep_compare c s t :
  String.compare (String c "" +:+ s) (String c "" +:+ t) = String.compare s t.
Proof.
  rewrite !append_String, compare_String. unfold Ascii.compare.
  by rewrite N.compare_refl.
Qed.

(** SQLite's bytewise comparison of two stored timestamps is the
    comparison of the fields. *)
Lemma isoformat_compare a b :
  dt_valid a → dt_valid b →
  String.compare (isoformat a) (isoformat b) = dt_compare a b.
Proof.
  intros (Hya & Hma & Hda & Hha & Hmia & Hsa & Hua)
         (Hyb & Hmb & Hdb & Hhb & Hmib & Hsb & Hub).
  assert (days_in_month (year a) (month a) ≤ 31 ∧
          days_in_month (year b) (month b) ≤ 31) as [??].
  { unfold days_in_month. split;
      repeat match goal with |- context [if ?c then _ else _] => destruct c end;
      lia. }
  unfold isoformat, dt_compare, dt_fields.
  cbn [lex_compare].
  rewrite pad_compare by (simpl; lia). rewrite sep_compare.
  rewrite pad_compare by (simpl; lia). rewrite sep_compare.
  rewrite pad_compare by (simpl; lia). rewrite sep_compare.
  rewrite pad_compare by (simpl; lia). rewrite sep_compare.
  rewrite pad_compare by (simpl; lia). rewrite sep_compare.
  rewrite pad_compare by (simpl; lia).
  assert (String.compare
            (if microsecond a =? 0 then "" else "." +:+ pad 6 (microsecond a))
            (if microsecond b =? 0 then "" else "." +:+ pad 6 (microsecond b))
          = (microsecond a ?= microsecond b)) as ->;
    [|by repeat (destruct (_ ?= _))].
  destruct (Z.eqb_spec (microsecond a) 0) as [Ha0|Ha0];
    destruct (Z.eqb_spec (microsecond b) 0) as [Hb0|Hb0].
  - by rewrite Ha0, Hb0.
  - rewrite Ha0. symmetry. apply Z.compare_lt_iff. lia.
  - rewrite Hb0. symmetry. apply Z.compare_gt_iff. lia.
  - rewrite <- (append_empty_r (pad 6 (microsecond a))).
    rewrite <- (append_empty_r (pad 6 (microsecond b))).
    rewrite sep_compare, pad_compare by (simpl; lia).
    by destruct (_ ?= _).
Qed.

Lemma string_compare_refl s : String.compare s s = Eq.
Proof.
  induction s as [|c s IH]; [done|]. rewrite compare_String.
  unfold Ascii.compare. by rewrite N.compare_refl.
Qed.

(** Distinct timestamps are stored as distinct strings. *)
Lemma isoformat_inj a b :
  dt_valid a → dt_valid b → isoformat a = isoformat b → a = b.
Proof.
  intros Ha Hb Heq.
  pose proof (isoformat_compare a b Ha Hb) as Hc.
  rewrite Heq in Hc.
  rewrite string_compare_refl in Hc.
  symmetry in Hc. apply lex_compare_eq in Hc; [|done].
  destruct a, b; simpl in *. by simplify_eq.
Qed.

Section Attendance.
Context {R : Type}.
Implicit Types (r : attendance_row R) (t : list (attendance_row R)).

#[local] Instance check_in_desc_total : Total (@check_in_desc R).
Proof.
  intros a b. unfold check_in_desc.
  destruct (dt_leb_total (check_in_time a) (check_in_time b)); auto.
Qed.

#[local] Instance check_in_desc_trans : Transitive (@check_in_desc R).
Proof.
  intros a b c Hab Hbc. unfold check_in_desc in *. by eapply dt_leb_trans.
Qed.

(** The first row of [ORDER BY check_in_time DESC] is a row of the table
    no row of which checked in later. *)
Lemma head_order_by_check_in_desc t r :
  head (order_by_check_in_desc t) = Some r →
  r ∈ t ∧ ∀ r', r' ∈ t → dt_leb (check_in_time r') (check_in_time r).
Proof.
  intros [t' Ht]%head_Some.
  pose proof (StronglySorted_merge_sort (@check_in_desc R) t) as Hs.
  pose proof (merge_sort_Permutation (@check_in_desc R) t) as Hp.
  fold (order_by_check_in_desc t) in Hs, Hp. rewrite Ht in Hs, Hp.
  split.
  - rewrite <- Hp. by left.
  - intros r' Hr'. rewrite <- Hp in Hr'.
    apply StronglySorted_inv in Hs as [_ Hall].
    apply elem_of_cons in Hr' as [->|Hr']; [apply dt_leb_refl|].
    rewrite Forall_forall in Hall. by apply Hall.
Qed.

Lemma head_order_by_check_in_desc_None t :
  head (order_by_check_in_desc t) = None ↔ t = [].
Proof.
  rewrite head_None. split; [|by intros ->].
  intros Ht. apply Permutation_nil_r.
  rewrite <- Ht. symmetry. apply merge_sort_Permutation.
Qed.

Lemma open_sessions_nil employee_id t :
  open_sessions employee_id t = [] ↔
  ∀ r, r ∈ t → att_employee_id r = employee_id → ¬ is_open r.
Proof.
  unfold open_sessions. split.
  - intros Hnil r Hr He Ho.
    by apply (filter_nil_not_elem_of _ t r Hnil).
  - intros Hno. induction t as [|x t IH]; [done|].
    rewrite filter_cons. destruct (decide _) as [[He Ho]|_].
    + exfalso. eapply Hno; eauto. by left.
    + apply IH. intros r Hr. apply Hno. by right.
Qed.

(** [UPDATE ... WHERE id = ?] under the primary key: the row with that id
    is rewritten in place and the rest of the table is as before. *)
Lemma update_attendance_lookup t r now location h i x :
  NoDup (att_id <$> t) → r ∈ t → t !! i = Some x →
  (x = r ∧ update_attendance (att_id r) now location h t !! i =
             Some (close_row now location h r)) ∨
  (x ≠ r ∧ update_attendance (att_id r) now location h t !! i = Some x).
Proof.
  intros Hnd Hr Hi. unfold update_attendance.
  rewrite list_lookup_fmap, Hi. simpl.
  destruct (decide (att_id x = att_id r)) as [Hid|Hid].
  - left. apply list_elem_of_lookup in Hr as [j Hj].
    assert (i = j) as ->.
    { eapply NoDup_lookup; [exact Hnd| |]; rewrite list_lookup_fmap.
      - by rewrite Hi.
      - rewrite Hj. simpl. by rewrite Hid. }
    split; congruence.
  - right. split; [|done]. by intros ->.
Qed.

End Attendance.

(** * Attendance: check-out *)

Section CheckOut.
Context {R : Type} `{Arith R}.
Implicit Types (r : attendance_row R) (db : database R).

(** What [check_out_attendance] does when the employee has an open
    session. *)
Lemma check_out_attendance_open now location employee_id db r0 :
  r0 ∈ attendance db → att_employee_id r0 = employee_id → is_open r0 →
  ∃ r,
    r ∈ attendance db ∧ att_employee_id r = employee_id ∧ is_open r ∧
    (∀ r', r' ∈ attendance db → att_employee_id r' = employee_id →
           is_open r' → dt_leb (check_in_time r') (check_in_time r)) ∧
    check_out_attendance now location employee_id db =
      ((Some (hours_between now (check_in_time r)), isoformat now),
       set_attendance
         (update_attendance (att_id r) now location
            (hours_between now (check_in_time r)) (attendance db)) db).
Proof.
  intros Hr0 He0 Ho0. unfold check_out_attendance.
  destruct (head _) as [r|] eqn:Hhead.
  - apply head_order_by_check_in_desc in Hhead as [Hr Hmax].
    apply list_elem_of_filter in Hr as [[He Ho] Hr].
    exists r. repeat split; try done.
    intros r' Hr' He' Ho'. apply Hmax.
    apply list_elem_of_filter. by repeat split.
  - apply head_order_by_check_in_desc_None in Hhead.
    exfalso. by eapply (proj1 (open_sessions_nil _ _) Hhead r0).
Qed.


(** C4. For an employee with no open session, [check_out_attendance]
    returns the pair of [None] and the no-open-session message as an
    ordinary value and leaves the store, the attendance table included, as
    it was. *)
Theorem check_out_without_open_session now location employee_id db :
  (∀ r, r ∈ attendance db → att_employee_id r = employee_id →
        ¬ is_open r) →
  check_out_attendance now location employee_id db =
    ((None, "No check-in record found. Please check in first."), db).
Proof.
  intros Hno. unfold check_out_attendance.
  apply open_sessions_nil in Hno. by rewrite Hno.
Qed.

End CheckOut.


Lemma check_out_without_open_session_witness :
  check_out_attendance (R:=float) (at_time 3 18 30) None "E9" float_db =
    ((None, "No check-in record found. Please check in first."),
     float_db).
Proof.
  apply (check_out_without_open_session (R:=float)).
  intros r Hr He.
  unfold float_db, sample_db, sample_attendance in Hr. simpl in Hr.
  repeat (apply elem_of_cons in Hr as [->|Hr]; [discriminate He|]).
  by apply elem_of_nil in Hr.
Defined.

(** * Billing ledger *)

Section Billing.
Context {R : Type} `{Arith R}.
Implicit Types (db : database R) (cl : client_row R).

Lemma register_client_duplicate client db cl :
  clients db !! form_client_id client = Some cl →
  register_client client db = (Raised IntegrityError, db).
Proof. intros Hc. unfold register_client. by rewrite Hc. Qed.

(** C7. Registering a client whose id is free creates its row with
    [outstanding] equal to the supplied [total_bill]; the form carries no
    outstanding amount of its own. Every other row and table is as
    before. *)
Theorem register_client_outstanding client db :
  clients db !! form_client_id client = None →
  ∃ db' row,
    register_client client db = (Returned (), db') ∧
    clients db' !! form_client_id client = Some row ∧
    total_bill row = form_total_bill client ∧
    outstanding row = form_total_bill client ∧
    (∀ c, c ≠ form_client_id client →
          clients db' !! c = clients db !! c) ∧
    employees db' = employees db ∧ attendance db' = attendance db ∧
    installments db' = installments db.
Proof.
  intros Hc. unfold register_client. rewrite Hc.
  eexists _, _. split; [done|]. simpl. split; [apply lookup_insert_eq|].
  repeat split. intros c Hne. by rewrite lookup_insert_ne.
Qed.

(** One call for a client of the store: a row is appended and the amount
    is subtracted from the outstanding balance. *)
Lemma record_installment_present now client_id amount db cl :
  clients db !! client_id = Some cl →
  record_installment now client_id amount db =
    ((), mk_database (employees db) (attendance db)
           (<[client_id := set_outstanding (sub (outstanding cl) amount) cl]>
              (clients db))
           (installments db ++
              [mk_installment (next_rowid (ins_id <$> installments db))
                 client_id amount now])).
Proof.
  intros Hc. unfold record_installment. simpl. rewrite Hc.
  unfold set_clients. simpl. do 2 f_equal.
  apply map_eq. intros c. destruct (decide (c = client_id)) as [->|Hne].
  - by rewrite lookup_alter_eq, lookup_insert_eq, Hc.
  - by rewrite lookup_alter_ne, lookup_insert_ne.
Qed.

(** One call for an id that is not in [clients]: the row is appended all
    the same and nothing else happens. *)
Lemma record_installment_absent now client_id amount db :
  clients db !! client_id = None →
  record_installment now client_id amount db =
    ((), set_installments
           (installments db ++
              [mk_installment (next_rowid (ins_id <$> installments db))
                 client_id amount now]) db).
Proof. intros Hc. unfold record_installment. simpl. by rewrite Hc. Qed.

Lemma set_outstanding_set_outstanding x y cl :
  set_outstanding x (set_outstanding y cl) = set_outstanding x cl.
Proof. done. Qed.

(** [n] calls for a client of the store: the amounts are subtracted one
    after the other and one row per call is appended, in call order. *)
Lemma record_installments_spec calls client_id db cl :
  clients db !! client_id = Some cl →
  let db' := record_installments calls client_id db in
  clients db' !! client_id =
    Some (set_outstanding (foldl sub (outstanding cl) calls.*2) cl) ∧
  (∀ c, c ≠ client_id → clients db' !! c = clients db !! c) ∧
  (∃ rows,
      installments db' = installments db ++ rows ∧
      length rows = length calls ∧
      Forall (λ row, ins_client_id row = client_id) rows ∧
      amount_paid <$> rows = calls.*2 ∧
      timestamp <$> rows = calls.*1) ∧
  employees db' = employees db ∧ attendance db' = attendance db.
Proof.
  revert db cl. induction calls as [|[now amount] calls IH]; intros db cl Hc.
  - simpl. repeat split; try done.
    + rewrite Hc. by destruct cl.
    + exists []. by rewrite app_nil_r.
  - simpl. unfold record_installments. simpl.
    rewrite (record_installment_present _ _ _ _ cl Hc). simpl.
    set (db1 := mk_database _ _ _ _).
    destruct (IH db1 (set_outstanding (sub (outstanding cl) amount) cl))
      as (Hout & Hother & (rows & Hrows & Hlen & Hid & Hamt & Hts) & He & Ha).
    { apply lookup_insert_eq. }
    fold (record_installments calls client_id db1).
    repeat split.
    + by rewrite Hout.
    + intros c Hne. rewrite Hother by done. simpl. by rewrite lookup_insert_ne.
    + eexists (_ :: rows). repeat split.
      * rewrite Hrows. simpl. by rewrite <- app_assoc.
      * simpl. by rewrite Hlen.
      * by constructor.
      * by rewrite fmap_cons, Hamt.
      * by rewrite fmap_cons, Hts.
    + by rewrite He.
    + by rewrite Ha.
Qed.

Lemma foldl_sub_sum (o acc : R) (amounts : list R) :
  (∀ a b c : R, sub (sub a b) c = sub a (add b c)) →
  foldl sub (sub o acc) amounts = sub o (foldl add acc amounts).
Proof.
  intros Hlaw. revert acc. induction amounts as [|a amounts IH]; intros acc.
  - done.
  - simpl. rewrite Hlaw. apply IH.
Qed.


(** C9 (amended). For a client id that is not in [clients],
    [record_installment] returns [None], the value it returns on every
    call, successful ones included: the caller receives no error value.
    The [clients] table and the employee and attendance tables are left
    as they were. *)
Theorem record_installment_unknown_client now client_id amount db :
  clients db !! client_id = None →
  ∃ db',
    record_installment now client_id amount db = ((), db') ∧
    (∀ now' client_id' amount' db0,
       (record_installment now' client_id' amount' db0).1 =
       (record_installment now client_id amount db).1) ∧
    clients db' = clients db ∧ employees db' = employees db ∧
    attendance db' = attendance db.
Proof.
  intros Hc. rewrite record_installment_absent by done.
  eexists. split; [done|]. split; [|done].
  intros now' client_id' amount' db0.
  by destruct (record_installment _ _ _ _).1.
Qed.

End Billing.

(** Subtraction over the rationals is exact. *)
Lemma exact_arith_sub_laws :
  (∀ a : Qc, sub a (of_int 0) = a) ∧
  (∀ a b c : Qc, sub (sub a b) c = sub a (add b c)).
Proof.
  split; intros; simpl.
  - change (Q2Qc (inject_Z 0)) with 0%Qc. ring.
  - ring.
Qed.



(** An overpayment drives the balance below zero. *)
Example record_installment_overpayment :
  outstanding <$>
    clients (record_installment (at_time 3 10 0) "C1" 6000%float float_db).2
      !! "C1" = Some (-1000)%float.
Proof. vm_compute. reflexivity. Qed.

Lemma register_client_outstanding_witness :
  ∃ db' row,
    register_client
      (mk_client_form "C2" "Globex" "" "" "" "" "" "" "" "NON-GEM"
         1000%float) float_db = (Returned (), db') ∧
    clients db' !! "C2" = Some row ∧
    total_bill row = 1000%float ∧ outstanding row = 1000%float ∧
    (∀ c, c ≠ "C2" → clients db' !! c = clients float_db !! c) ∧
    employees db' = employees float_db ∧
    attendance db' = attendance float_db ∧
    installments db' = installments float_db.
Proof.
  apply (register_client_outstanding (R:=float)
           (mk_client_form "C2" "Globex" "" "" "" "" "" "" "" "NON-GEM"
              1000%float) float_db).
  vm_compute. reflexivity.
Defined.

(** C9, as stated, fails: no client has id C9, and the call returns the
    same [None] it returns for the known client C1 while an installment
    row for C9 is added to the empty [installments] table. *)
Lemma record_installment_unknown_client_counterexample :
  clients float_db !! "C9" = None ∧
  (record_installment (at_time 3 10 0) "C9" 50%float float_db).1 =
    (record_installment (at_time 3 10 0) "C1" 50%float float_db).1 ∧
  installments float_db = [] ∧
  installments
    (record_installment (at_time 3 10 0) "C9" 50%float float_db).2 =
    [mk_installment 1 "C9" 50%float (at_time 3 10 0)] ∧
  clients (record_installment (at_time 3 10 0) "C9" 50%float float_db).2 =
    clients float_db.
Proof. repeat split; vm_compute; reflexivity. Qed.

Lemma record_installment_unknown_client_witness :
  ∃ db',
    record_installment (at_time 3 10 0) "C9" 50%float float_db = ((), db') ∧
    (∀ now' client_id' amount' (db0 : database float),
       (record_installment now' client_id' amount' db0).1 =
       (record_installment (at_time 3 10 0) "C9" 50%float float_db).1) ∧
    clients db' = clients float_db ∧ employees db' = employees float_db ∧
    attendance db' = attendance float_db.
Proof.
  apply (record_installment_unknown_client (R:=float)).
  vm_compute. reflexivity.
Defined.

(** * Binary64 facts *)

Lemma is_finite_Prim2SF x :
  is_finite x = true →
  match Prim2SF x with
  | S754_zero _ | S754_finite _ _ _ => True
  | _ => False
  end.
Proof.
  unfold is_finite, is_nan, is_infinity.
  rewrite !FloatAxioms.eqb_spec, FloatAxioms.abs_spec.
  change (Prim2SF infinity) with (S754_infinity false).
  destruct (Prim2SF x) as [s|s| |s m e]; simpl; try done.
  by destruct s.
Qed.

Lemma fzero_mul_r x y : is_finite x = true → fzero y → fzero (x * y).
Proof.
  intros Hx%is_finite_Prim2SF [s Hy]. unfold fzero.
  rewrite FloatAxioms.mul_spec, Hy.
  destruct (Prim2SF x) as [sx|sx| |sx mx ex]; simpl; try done; eauto.
Qed.

Lemma fzero_add x y : fzero x → fzero y → fzero (x + y).
Proof.
  intros [sx Hx] [sy Hy]. unfold fzero. rewrite FloatAxioms.add_spec, Hx, Hy.
  destruct sx, sy; simpl; eauto.
Qed.

Lemma fzero_sub x y : fzero x → fzero y → fzero (x - y).
Proof.
  intros [sx Hx] [sy Hy]. unfold fzero. rewrite FloatAxioms.sub_spec, Hx, Hy.
  destruct sx, sy; simpl; eauto.
Qed.

Lemma fzero_eqb x : fzero x → (x =? 0)%float = true.
Proof.
  intros [s Hx]. rewrite FloatAxioms.eqb_spec, Hx.
  by change (Prim2SF 0) with (S754_zero false).
Qed.

Lemma fzero_zero : fzero 0.
Proof. by exists false. Qed.

(** ** Signs through rounding

    The rounding functions of the binary64 specification keep a mantissa
    that is not negative so, and with it the sign they are given. *)

Lemma shr_1_nonneg mrs : 0 ≤ shr_m mrs → 0 ≤ shr_m (shr_1 mrs).
Proof. destruct mrs as [[|[p|p|]|[p|p|]] r s]; simpl; lia. Qed.

Lemma iter_pos_shr_1_nonneg p mrs :
  0 ≤ shr_m mrs → 0 ≤ shr_m (SpecFloat.iter_pos shr_1 p mrs).
Proof.
  revert mrs. induction p as [p IH|p IH|]; intros mrs Hm; simpl.
  - apply IH, IH. by apply shr_1_nonneg.
  - by apply IH, IH.
  - by apply shr_1_nonneg.
Qed.

Lemma shr_nonneg mrs e n : 0 ≤ shr_m mrs → 0 ≤ shr_m (shr mrs e n).1.
Proof.
  intros Hm. destruct n; simpl; try done. by apply iter_pos_shr_1_nonneg.
Qed.

Lemma shr_fexp_nonneg prec emax m e l :
  0 ≤ m → 0 ≤ shr_m (shr_fexp prec emax m e l).1.
Proof.
  intros Hm. unfold shr_fexp. apply shr_nonneg.
  by destruct l as [|[]].
Qed.

Lemma round_nearest_even_nonneg m l : 0 ≤ m → 0 ≤ round_nearest_even m l.
Proof.
  intros Hm. destruct l as [|[]]; simpl; try lia.
  destruct (Z.even m); lia.
Qed.

Lemma binary_round_aux_nonneg prec emax mx ex lx :
  0 ≤ mx → SFnonneg (binary_round_aux prec emax false mx ex lx).
Proof.
  intros Hm. unfold binary_round_aux.
  pose proof (shr_fexp_nonneg prec emax mx ex lx Hm) as H1.
  destruct (shr_fexp prec emax mx ex lx) as [mrs' e']. simpl in H1.
  pose proof (shr_fexp_nonneg prec emax
                (round_nearest_even (shr_m mrs') (loc_of_shr_record mrs'))
                e' loc_Exact (round_nearest_even_nonneg _ _ H1)) as H2.
  destruct (shr_fexp prec emax _ e' loc_Exact) as [mrs'' e'']. simpl in H2.
  destruct (shr_m mrs''); simpl; [done| |lia].
  by destruct (_ <=? _).
Qed.

Lemma binary_normalize_nonneg prec emax m e :
  0 ≤ m → SFnonneg (binary_normalize prec emax m e false).
Proof.
  intros Hm. destruct m as [|p|p]; simpl; [done| |lia].
  unfold binary_round. destruct (shl_align _ _ _) as [mz ez].
  by apply binary_round_aux_nonneg.
Qed.

Lemma SFdiv_nonneg prec emax x my ey :
  SFnonneg x → SFnonneg (SFdiv prec emax x (S754_finite false my ey)).
Proof.
  destruct x as [s|[]| |[] mx ex]; simpl; try done. intros _.
  unfold SFdiv_core_binary.
  set (m' := match _ with Z0 => Z.pos mx | Z.pos _ => _ | Z.neg _ => 0 end).
  assert (0 ≤ m') as Hm'.
  { unfold m'. destruct (_ - _ - _); try done. by apply Z.shiftl_nonneg. }
  pose proof (Z.div_pos m' (Z.pos my) Hm' eq_refl) as Hq.
  unfold Z.div in Hq. destruct (Z.div_eucl m' (Z.pos my)) as [q r].
  by apply binary_round_aux_nonneg.
Qed.

Lemma float_of_Z_nonneg n : 0 ≤ n → SFnonneg (Prim2SF (float_of_Z n)).
Proof.
  intros Hn. destruct n as [|p|p]; [done| |lia]. unfold float_of_Z.
  rewrite FloatAxioms.of_uint63_spec. apply binary_normalize_nonneg.
  apply Uint63.to_Z_bounded.
Qed.

Lemma float_div_nonneg x c my ey :
  Prim2SF c = S754_finite false my ey →
  SFnonneg (Prim2SF x) → SFnonneg (Prim2SF (x / c)).
Proof.
  intros Hc Hx. rewrite FloatAxioms.div_spec, Hc. by apply SFdiv_nonneg.
Qed.

Lemma float_leb_nonneg x : SFnonneg (Prim2SF x) → (0 <=? x)%float = true.
Proof.
  intros Hx. rewrite FloatAxioms.leb_spec.
  change (Prim2SF 0) with (S754_zero false).
  by destruct (Prim2SF x) as [s|[]| |[] m e].
Qed.

(** * Payroll *)

(** The literals of [calculate_salary], as binary64 values. *)
Lemma dec_float_literals :
  dec 12 2 = 0.12%float ∧ dec 13 2 = 0.13%float ∧ dec 5 2 = 0.05%float ∧
  dec 83 2 = 0.83%float ∧ of_int 3600 = 3600%float ∧
  of_int 1000000 = 1000000%float.
Proof. repeat split; vm_compute; reflexivity. Qed.

Section Payroll.
Context {R : Type} `{Arith R}.
Implicit Types (r : attendance_row R) (db : database R).

Lemma calculate_salary_rate now employee_id db row rate :
  employees db !! employee_id = Some row → rate_per_hour row = Some rate →
  calculate_salary now employee_id db =
    let hours := month_hours now employee_id db in
    let base := mul rate hours in
    Some (mk_salary hours base (mul (dec 12 2) base) (mul (dec 13 2) base)
            (mul (dec 5 2) base) (mul (dec 5 2) base)
            (sub base (add (mul (dec 12 2) base) (mul (dec 5 2) base)))).
Proof.
  intros He Hrate. unfold calculate_salary, month_hours.
  rewrite He, Hrate. simpl. by destruct (sql_sum _).
Qed.

Lemma calculate_salary_None now employee_id db :
  calculate_salary now employee_id db = None ↔
  employees db !! employee_id = None ∨
  ∃ row, employees db !! employee_id = Some row ∧ rate_per_hour row = None.
Proof.
  unfold calculate_salary.
  destruct (employees db !! employee_id) as [row|] eqn:He; [|by split; auto].
  destruct (rate_per_hour row) as [rate|] eqn:Hrate.
  - split; [done|]. intros [|(row' & ? & ?)]; [done|]. by simplify_eq.
  - split; [|done]. intros _. right. by exists row.
Qed.

Lemma closed_since_elem employee_id since t r :
  r ∈ closed_since employee_id since t ↔
  r ∈ t ∧ att_employee_id r = employee_id ∧ check_out_time r ≠ None ∧
  dt_leb since (check_in_time r).
Proof.
  unfold closed_since. rewrite list_elem_of_filter. unfold is_open. tauto.
Qed.

(** A row that is open, or of another employee, or checked in before
    [since], does not take part in the selection. *)
Lemma closed_since_skip employee_id since t1 r t2 :
  is_open r ∨ att_employee_id r ≠ employee_id ∨
    dt_ltb (check_in_time r) since →
  closed_since employee_id since (t1 ++ r :: t2) =
  closed_since employee_id since (t1 ++ t2).
Proof.
  intros Hr. unfold closed_since. rewrite !filter_app. f_equal.
  apply filter_cons_False. intros (He & Ho & Hs).
  destruct Hr as [?|[?|Hlt]]; [done..|].
  rewrite dt_ltb_leb in Hlt. by destruct (dt_leb since (check_in_time r)).
Qed.

(** When every row checked in before [now], the selection is the period
    from the first of the month to [now]. *)
Lemma closed_since_period employee_id now t :
  (∀ r, r ∈ t → dt_ltb (check_in_time r) now) →
  closed_since employee_id (start_month now) t =
  closed_in_period employee_id (start_month now) now t.
Proof.
  intros Hbefore. unfold closed_since, closed_in_period.
  induction t as [|x t IH]; [done|].
  rewrite !filter_cons, IH by (intros r Hr; apply Hbefore; by right).
  assert (dt_ltb (check_in_time x) now) as Hx by (apply Hbefore; by left).
  destruct (decide _) as [Hp|Hp]; destruct (decide _) as [Hq|Hq];
    try done; exfalso; tauto.
Qed.

End Payroll.

(** C1 (amended). For every employee with a configured hourly rate,
    [calculate_salary] returns a breakdown in which
    [retirement_benefits1 = 0.12 * base_salary],
    [retirement_benefits2 = 0.13 * base_salary],
    [insurance1 = insurance2 = 0.05 * base_salary] and
    [actual_salary = base_salary - (retirement_benefits1 + insurance1)],
    each evaluated in the arithmetic of the store (binary64);
    [retirement_benefits2] and [insurance2] are not subtracted. Over the
    rationals [actual_salary] is exactly [0.83 * base_salary]; in binary64
    the two can differ. *)
Theorem calculate_salary_breakdown :
  (∀ (R : Type) (A : Arith R) now employee_id (db : database R) row rate,
     employees db !! employee_id = Some row →
     rate_per_hour row = Some rate →
     ∃ s,
       calculate_salary now employee_id db = Some s ∧
       base_salary s = mul rate (total_hours s) ∧
       retirement_benefits1 s = mul (dec 12 2) (base_salary s) ∧
       retirement_benefits2 s = mul (dec 13 2) (base_salary s) ∧
       insurance1 s = mul (dec 5 2) (base_salary s) ∧
       insurance2 s = mul (dec 5 2) (base_salary s) ∧
       actual_salary s =
         sub (base_salary s) (add (retirement_benefits1 s) (insurance1 s))) ∧
  (∀ now employee_id (db : database Qc) row rate,
     employees db !! employee_id = Some row →
     rate_per_hour row = Some rate →
     ∃ s,
       calculate_salary now employee_id db = Some s ∧
       actual_salary s = (Q2Qc (83 # 100) * base_salary s)%Qc).
Proof.
  split.
  - intros R A now employee_id db row rate He Hrate.
    rewrite (calculate_salary_rate _ _ _ row rate He Hrate). cbv zeta.
    eexists. split; [reflexivity|]. done.
  - intros now employee_id db row rate He Hrate.
    rewrite (calculate_salary_rate _ _ _ row rate He Hrate). cbv zeta.
    eexists. split; [reflexivity|].
    assert (dec 12 2 = Q2Qc (12 # 100)) as ->
      by (apply Qc_is_canon; vm_compute; reflexivity).
    assert (dec 5 2 = Q2Qc (5 # 100)) as ->
      by (apply Qc_is_canon; vm_compute; reflexivity).
    assert (Q2Qc (83 # 100) = 1 - (Q2Qc (12 # 100) + Q2Qc (5 # 100)))%Qc
      as -> by (apply Qc_is_canon; vm_compute; reflexivity).
    simpl.
    ring.
Qed.

(** C1, as stated, fails on binary64: at rate 1 and one hour worked the
    base salary is 1.0, [1.0 - (0.12 + 0.05)] is 0.83000000000000007 and
    [0.83 * 1.0] is 0.82999999999999996; neither is the rational 83/100. *)
Lemma calculate_salary_float_counterexample :
  ∃ s,
    calculate_salary (at_time 3 18 30) "E1" unit_rate_db = Some s ∧
    base_salary s = 1%float ∧
    retirement_benefits1 s = 0.12%float ∧ insurance1 s = 0.05%float ∧
    actual_salary s = 0.83000000000000007%float ∧
    mul 0.83%float (base_salary s) = 0.82999999999999996%float ∧
    num_eqb (actual_salary s) (mul 0.83%float (base_salary s)) = false ∧
    Qeq_bool (float_to_Q (actual_salary s))
      ((83 # 100) * float_to_Q (base_salary s)) = false.
Proof. eexists. repeat split; vm_compute; reflexivity. Qed.

(** The scenario of the specification: rate 100, two and a half hours. *)
Lemma calculate_salary_breakdown_witness :
  ∃ s,
    calculate_salary (at_time 3 18 30) "E1" float_db = Some s ∧
    total_hours s = 2.5%float ∧ base_salary s = 250%float ∧
    retirement_benefits1 s = 30%float ∧ insurance1 s = 12.5%float ∧
    actual_salary s = 207.5%float.
Proof.
  destruct (proj1 calculate_salary_breakdown float _ (at_time 3 18 30) "E1"
              float_db (sample_employee (Some 100%float)) 100%float)
    as (s & Hs & _).
  - vm_compute. reflexivity.
  - reflexivity.
  - exists s. split; [exact Hs|].
    vm_compute in Hs. injection Hs as <-.
    repeat split; vm_compute; reflexivity.
Defined.

Section PayrollPeriod.
Context {R : Type} `{Arith R}.
Implicit Types (r : attendance_row R) (db : database R).

(** C6 (amended). [calculate_salary] sums working hours only over closed
    sessions of the given employee that checked in at or after the first
    day of the current month: no open session, no session of another
    employee and no session checked in before the first of the month takes
    part. No upper bound is applied: a closed session stamped at or after
    the caller's [now] is summed too, and the selection is the period from
    the first of the month to [now] when every row checked in before
    [now]. *)
Theorem calculate_salary_hours_period now employee_id db row rate :
  employees db !! employee_id = Some row →
  rate_per_hour row = Some rate →
  ∃ s,
    calculate_salary now employee_id db = Some s ∧
    total_hours s =
      default (of_int 0)
        (sql_sum (working_hours <$>
                    closed_since employee_id (start_month now)
                      (attendance db))) ∧
    (∀ r, r ∈ closed_since employee_id (start_month now) (attendance db) ↔
          r ∈ attendance db ∧ att_employee_id r = employee_id ∧
          check_out_time r ≠ None ∧
          dt_leb (start_month now) (check_in_time r)) ∧
    (∀ t1 r t2,
       attendance db = t1 ++ r :: t2 →
       is_open r ∨ att_employee_id r ≠ employee_id ∨
         dt_ltb (check_in_time r) (start_month now) →
       calculate_salary now employee_id (set_attendance (t1 ++ t2) db) =
       Some s) ∧
    ((∀ r, r ∈ attendance db → dt_ltb (check_in_time r) now) →
     closed_since employee_id (start_month now) (attendance db) =
     closed_in_period employee_id (start_month now) now (attendance db)).
Proof.
  intros He Hrate.
  rewrite (calculate_salary_rate _ _ _ row rate He Hrate). cbv zeta.
  eexists. split; [reflexivity|]. simpl.
  split; [reflexivity|].
  split; [intros r; apply closed_since_elem|].
  split; [|apply closed_since_period].
  intros t1 r t2 Ht Hr.
  rewrite (calculate_salary_rate now employee_id
             (set_attendance (t1 ++ t2) db) row rate He Hrate).
  cbv zeta. unfold month_hours. simpl.
  by rewrite Ht, (closed_since_skip _ _ t1 r t2 Hr).
Qed.

End PayrollPeriod.

(** C6, as stated, fails: the clock reads 08:00 on 3 November and the
    store holds a closed session of E1 stamped 09:00 the same day. No
    session lies in the period from the first of the month to [now], and
    [total_hours] is the 2.5 hours of that session. *)
Lemma calculate_salary_period_counterexample :
  ∃ s,
    calculate_salary (at_time 3 8 0) "E1" float_db = Some s ∧
    closed_in_period "E1" (start_month (at_time 3 8 0)) (at_time 3 8 0)
      (attendance float_db) = [] ∧
    closed_since "E1" (start_month (at_time 3 8 0)) (attendance float_db) =
      [mk_attendance 1 "E1" (at_time 3 9 0) None []
         (Some (at_time 3 11 30)) None (Some 2.5%float)] ∧
    dt_leb (at_time 3 8 0) (at_time 3 9 0) = true ∧
    total_hours s = 2.5%float ∧
    num_eqb (total_hours s) 0%float = false.
Proof. eexists. repeat split; vm_compute; reflexivity. Qed.

Lemma calculate_salary_hours_period_witness :
  ∃ s,
    calculate_salary (at_time 3 18 30) "E1" float_db = Some s ∧
    total_hours s = 2.5%float ∧
    closed_since "E1" (start_month (at_time 3 18 30)) (attendance float_db) =
    closed_in_period "E1" (start_month (at_time 3 18 30)) (at_time 3 18 30)
      (attendance float_db).
Proof.
  destruct (calculate_salary_hours_period (R:=float) (at_time 3 18 30) "E1"
              float_db (sample_employee (Some 100%float)) 100%float)
    as (s & Hs & Hh & _ & _ & Hp).
  - vm_compute. reflexivity.
  - reflexivity.
  - exists s. split; [exact Hs|]. split.
    + rewrite Hh. vm_compute. reflexivity.
    + apply Hp. intros r Hr.
      unfold float_db, sample_db, sample_attendance in Hr. simpl in Hr.
      repeat (apply elem_of_cons in Hr as [->|Hr]; [vm_compute; exact I|]).
      by apply elem_of_nil in Hr.
Defined.

(** C8. [calculate_salary] returns [None] exactly when the employee is
    absent or has no hourly rate, and a breakdown for every employee with
    a rate. With a finite rate and no closed session checked in since the
    first of the current month, [total_hours] and every amount of the
    breakdown compare equal to 0. *)
Theorem calculate_salary_null_or_zero :
  (∀ (R : Type) (A : Arith R) now employee_id (db : database R),
     calculate_salary now employee_id db = None ↔
     employees db !! employee_id = None ∨
     ∃ row, employees db !! employee_id = Some row ∧
            rate_per_hour row = None) ∧
  (∀ (R : Type) (A : Arith R) now employee_id (db : database R) row rate,
     employees db !! employee_id = Some row →
     rate_per_hour row = Some rate →
     ∃ s, calculate_salary now employee_id db = Some s) ∧
  (∀ now employee_id (db : database float) row rate,
     employees db !! employee_id = Some row →
     rate_per_hour row = Some rate →
     is_finite rate = true →
     (∀ r, r ∈ attendance db → att_employee_id r = employee_id →
           check_out_time r ≠ None →
           dt_ltb (check_in_time r) (start_month now)) →
     ∃ s,
       calculate_salary now employee_id db = Some s ∧
       num_eqb (total_hours s) 0%float = true ∧
       num_eqb (base_salary s) 0%float = true ∧
       num_eqb (retirement_benefits1 s) 0%float = true ∧
       num_eqb (retirement_benefits2 s) 0%float = true ∧
       num_eqb (insurance1 s) 0%float = true ∧
       num_eqb (insurance2 s) 0%float = true ∧
       num_eqb (actual_salary s) 0%float = true).
Proof.
  split; [|split].
  - intros. apply calculate_salary_None.
  - intros R A now employee_id db row rate He Hrate.
    rewrite (calculate_salary_rate _ _ _ row rate He Hrate). by eexists.
  - intros now employee_id db row rate He Hrate Hfin Hnone.
    rewrite (calculate_salary_rate _ _ _ row rate He Hrate). cbv zeta.
    eexists. split; [reflexivity|]. simpl.
    assert (closed_since employee_id (start_month now) (attendance db) = [])
      as Hsel.
    { unfold closed_since. revert Hnone. generalize (attendance db).
      intros t. induction t as [|x t IH]; intros Hnone; [done|].
      rewrite filter_cons_False.
      - apply IH. intros r Hr. apply Hnone. by right.
      - intros (Hx & Ho & Hs).
        assert (dt_ltb (check_in_time x) (start_month now)) as Hlt
          by (apply Hnone; [by left|done|exact Ho]).
        rewrite dt_ltb_leb in Hlt.
        by destruct (dt_leb (start_month now) (check_in_time x)). }
    unfold month_hours. rewrite Hsel. simpl.
    assert (fzero (rate * 0)) as Hbase
      by (apply fzero_mul_r; [done|apply fzero_zero]).
    assert (∀ c, is_finite c = true → fzero (c * (rate * 0))) as Hpct
      by (intros c Hc; by apply fzero_mul_r).
    repeat split; apply fzero_eqb;
      [done | apply Hpct; vm_compute; reflexivity.. |].
    apply fzero_sub; [done|].
    apply fzero_add; apply Hpct; vm_compute; reflexivity.
Qed.

Lemma calculate_salary_null_or_zero_witness :
  calculate_salary (at_time 3 18 30) "E2" float_db = None ∧
  calculate_salary (at_time 3 18 30) "E9" float_db = None ∧
  ∃ s,
    calculate_salary (mk_datetime 2026 12 1 8 0 0 0) "E1" float_db = Some s ∧
    total_hours s = 0%float ∧ base_salary s = 0%float ∧
    actual_salary s = 0%float.
Proof.
  destruct calculate_salary_null_or_zero as (Hnone & _ & Hzero).
  split; [|split].
  - apply Hnone. right. eexists. split; vm_compute; reflexivity.
  - apply Hnone. left. vm_compute. reflexivity.
  - destruct (Hzero (mk_datetime 2026 12 1 8 0 0 0) "E1" float_db
                (sample_employee (Some 100%float)) 100%float)
      as (s & Hs & _).
    + vm_compute. reflexivity.
    + reflexivity.
    + vm_compute. reflexivity.
    + intros r Hr He Hc.
      unfold float_db, sample_db, sample_attendance in Hr. simpl in Hr.
      repeat (apply elem_of_cons in Hr as [->|Hr];
              [first [vm_compute; exact I | done]|]).
      by apply elem_of_nil in Hr.
    + exists s. split; [exact Hs|].
      vm_compute in Hs. injection Hs as <-.
      repeat split; vm_compute; reflexivity.
Defined.

(** * The calendar

    On the values [datetime] accepts, the order of the stored strings is
    the order of time: a later timestamp has a non-negative distance. *)

Lemma days_before_year_succ y :
  days_before_year (y + 1) =
  days_before_year y + (if is_leap y then 366 else 365).
Proof.
  unfold days_before_year, is_leap. replace (y + 1 - 1) with y by lia.
  destruct (Z.eqb_spec (y mod 4) 0); destruct (Z.eqb_spec (y mod 100) 0);
    destruct (Z.eqb_spec (y mod 400) 0); cbn [andb orb negb];
    Z.div_mod_to_equations; lia.
Qed.

Lemma days_before_year_le y y' :
  y ≤ y' → days_before_year y ≤ days_before_year y'.
Proof. unfold days_before_year. Z.div_mod_to_equations. lia. Qed.

Lemma month_cases m :
  1 ≤ m ≤ 12 →
  m = 1 ∨ m = 2 ∨ m = 3 ∨ m = 4 ∨ m = 5 ∨ m = 6 ∨ m = 7 ∨ m = 8 ∨
  m = 9 ∨ m = 10 ∨ m = 11 ∨ m = 12.
Proof. lia. Qed.

Lemma days_before_month_bounds y m :
  1 ≤ m ≤ 12 →
  0 ≤ days_before_month y m ∧
  days_before_month y m + days_in_month y m ≤
    (if is_leap y then 366 else 365).
Proof.
  intros Hm%month_cases. unfold days_before_month, days_in_month.
  repeat destruct Hm as [->|Hm]; try subst m;
    simpl; destruct (is_leap y); simpl; lia.
Qed.

Lemma days_before_month_next y m m' :
  1 ≤ m → m < m' → m' ≤ 12 →
  days_before_month y m + days_in_month y m ≤ days_before_month y m'.
Proof.
  intros H1 Hlt H12.
  assert (1 ≤ m ≤ 12) as Hm%month_cases by lia.
  assert (1 ≤ m' ≤ 12) as Hm'%month_cases by lia.
  unfold days_before_month, days_in_month.
  repeat destruct Hm as [->|Hm]; try subst m;
    repeat destruct Hm' as [->|Hm']; try subst m'; try lia;
    simpl; destruct (is_leap y); simpl; lia.
Qed.

(** The day number grows with the date. *)
Lemma toordinal_lt a b :
  dt_valid a → dt_valid b →
  lex_compare [year b; month b; day b] [year a; month a; day a] = Lt →
  toordinal b < toordinal a.
Proof.
  intros (Hya & Hma & Hda & _) (Hyb & Hmb & Hdb & _). simpl.
  unfold toordinal.
  pose proof (days_before_month_bounds (year a) (month a) Hma) as [Ha0 _].
  pose proof (days_before_month_bounds (year b) (month b) Hmb) as [_ Hb1].
  destruct (Z.compare_spec (year b) (year a)) as [Hy|Hy|Hy]; try done.
  - rewrite Hy in *.
    destruct (Z.compare_spec (month b) (month a)) as [Hm|Hm|Hm]; try done.
    + rewrite Hm in *.
      destruct (Z.compare_spec (day b) (day a)); try done. lia.
    + intros _.
      pose proof (days_before_month_next (year a) (month b) (month a)).
      lia.
  - intros _.
    pose proof (days_before_year_succ (year b)) as Hs.
    pose proof (days_before_year_le (year b + 1) (year a)). lia.
Qed.

(** Check-out not earlier than check-in: the elapsed time is not
    negative. *)
Lemma dt_sub_us_nonneg a b :
  dt_valid a → dt_valid b → dt_leb b a → 0 ≤ dt_sub_us a b.
Proof.
  intros Ha Hb Hle.
  pose proof (toordinal_lt a b Ha Hb) as Hord.
  destruct Ha as (_ & _ & _ & Hha & Hmia & Hsa & Hua).
  destruct Hb as (_ & _ & _ & Hhb & Hmib & Hsb & Hub).
  unfold dt_leb, dt_compare, dt_fields in Hle. unfold dt_sub_us.
  simpl in Hle, Hord.
  destruct (Z.compare_spec (year b) (year a)) as [Hy|Hy|Hy]; try done;
    [|specialize (Hord eq_refl); lia].
  destruct (Z.compare_spec (month b) (month a)) as [Hm|Hm|Hm]; try done;
    [|specialize (Hord eq_refl); lia].
  destruct (Z.compare_spec (day b) (day a)) as [Hd|Hd|Hd]; try done;
    [|specialize (Hord eq_refl); lia].
  assert (toordinal a = toordinal b) as ->
    by (unfold toordinal; by rewrite Hy, Hm, Hd).
  destruct (Z.compare_spec (hour b) (hour a)) as [Hh|Hh|Hh]; try done;
    [|lia].
  destruct (Z.compare_spec (minute b) (minute a)) as [Hmi|Hmi|Hmi];
    try done; [|lia].
  destruct (Z.compare_spec (second b) (second a)) as [Hs|Hs|Hs];
    try done; [|lia].
  destruct (Z.compare_spec (microsecond b) (microsecond a)); try done; lia.
Qed.

Lemma dt_sub_us_self a : dt_sub_us a a = 0.
Proof. unfold dt_sub_us. lia. Qed.

(** * Working hours *)

Lemma all_from_spec P n z0 :
  all_from P z0 n = true → ∀ z, z0 ≤ z < z0 + Z.of_nat n → P z = true.
Proof.
  revert z0. induction n as [|k IH]; simpl; intros z0 Hall z Hz; [lia|].
  apply andb_prop in Hall as [H1 H2].
  destruct (decide (z = z0)) as [->|Hne]; [exact H1|].
  apply (IH (z0 + 1)); [exact H2|lia].
Qed.

(** The hours of an elapsed time of [us] microseconds, in binary64. *)
Lemma hours_between_float now check_in :
  hours_between now check_in =
  (float_of_Z (dt_sub_us now check_in) / 1000000 / 3600)%float.
Proof. reflexivity. Qed.

Lemma hours_nonneg us :
  0 ≤ us → (0 <=? float_of_Z us / 1000000 / 3600)%float = true.
Proof.
  intros Hus. apply float_leb_nonneg.
  eapply float_div_nonneg; [vm_compute; reflexivity|].
  eapply float_div_nonneg; [vm_compute; reflexivity|].
  by apply float_of_Z_nonneg.
Qed.

(** Up to a millisecond of elapsed time gives at most a millisecond's
    worth of hours (about 2.8e-7). *)
Lemma hours_millisecond us :
  0 ≤ us ≤ 1000 →
  (float_of_Z us / 1000000 / 3600 <=? 0.001 / 3600)%float = true.
Proof.
  intros Hus.
  apply (all_from_spec
           (λ z, (float_of_Z z / 1000000 / 3600 <=? 0.001 / 3600)%float)
           1001 0); [|lia].
  vm_compute. reflexivity.
Qed.



(** * Check-in followed by check-out *)

Section CheckInOut.
Context {R : Type} `{Arith R}.
Implicit Types (r : attendance_row R) (db : database R).

Lemma next_rowid_fresh ids i : i ∈ ids → i < next_rowid ids.
Proof.
  unfold next_rowid. induction ids as [|j ids IH]; [by intros ?%elem_of_nil|].
  intros [->|Hi]%elem_of_cons; simpl; [lia|]. specialize (IH Hi). lia.
Qed.

(** [check_in_attendance] keeps the row ids distinct. *)
Lemma check_in_attendance_NoDup now location employee_id selfie db :
  NoDup (att_id <$> attendance db) →
  NoDup (att_id <$>
           attendance
             (check_in_attendance now location employee_id selfie db).2).
Proof.
  intros Hnd. simpl. rewrite fmap_app. simpl.
  apply NoDup_app. split; [done|]. split; [|apply NoDup_singleton].
  intros i Hi ->%list_elem_of_singleton.
  apply next_rowid_fresh in Hi. lia.
Qed.

(** [check_out_attendance] keeps the row ids as they are. *)
Lemma check_out_attendance_ids now location employee_id db :
  att_id <$> attendance (check_out_attendance now location employee_id db).2
  = att_id <$> attendance db.
Proof.
  unfold check_out_attendance. destruct (head _) as [r|]; [|done]. simpl.
  unfold update_attendance. rewrite <- list_fmap_compose.
  apply list_fmap_ext. intros i x _. simpl. by destruct (decide _).
Qed.

(** For an employee with no open session, a check-in at [t0] followed by
    a check-out at [t1] returns the hours between [t0] and [t1]. *)
Lemma check_in_then_check_out t0 t1 loc0 loc1 employee_id selfie db :
  (∀ r, r ∈ attendance db → att_employee_id r = employee_id →
        ¬ is_open r) →
  (check_out_attendance t1 loc1 employee_id
     (check_in_attendance t0 loc0 employee_id selfie db).2).1 =
  (Some (hours_between t1 t0), isoformat t1).
Proof.
  intros Hno%open_sessions_nil. unfold check_out_attendance. simpl.
  unfold open_sessions in *. rewrite filter_app, Hno. simpl.
  rewrite filter_cons_True by done. rewrite filter_nil.
  set (row := mk_attendance _ _ _ _ _ _ _ _).
  pose proof (merge_sort_Permutation check_in_desc [row]) as Hp.
  apply Permutation_singleton_r in Hp.
  unfold order_by_check_in_desc. by rewrite Hp.
Qed.

End CheckInOut.

(** In binary64, a check-out at the instant of the check-in gives 0 hours,
    and a check-out not before the check-in gives hours that are not
    negative. *)
Lemma check_in_then_check_out_hours t0 t1 loc0 loc1 employee_id selfie
    (db : database float) :
  (∀ r, r ∈ attendance db → att_employee_id r = employee_id →
        ¬ is_open r) →
  ∃ h : float,
    (check_out_attendance t1 loc1 employee_id
       (check_in_attendance t0 loc0 employee_id selfie db).2).1 =
    (Some h, isoformat t1) ∧
    (t1 = t0 → h = 0%float) ∧
    (dt_valid t0 → dt_valid t1 → dt_leb t0 t1 → (0 <=? h)%float = true).
Proof.
  intros Hno. exists (hours_between t1 t0).
  split; [by apply check_in_then_check_out|].
  rewrite hours_between_float. split.
  - intros ->. by rewrite dt_sub_us_self.
  - intros Hv0 Hv1 Hle. apply hours_nonneg. by apply dt_sub_us_nonneg.
Qed.

(** * Further properties of the attendance module *)

Section AttendanceMore.
Context {R : Type} `{Arith R}.
Implicit Types (r : attendance_row R) (db : database R).

(** X1. [check_in_attendance] and [check_out_attendance] keep the
    attendance table well formed: row ids stay distinct (a check-in takes
    an id above every id in use), and a row has working hours exactly when
    it is closed. *)
Theorem attendance_wf_preserved now location employee_id selfie db :
  attendance_wf (attendance db) →
  attendance_wf
    (attendance (check_in_attendance now location employee_id selfie db).2) ∧
  attendance_wf
    (attendance (check_out_attendance now location employee_id db).2) ∧
  (∀ r, r ∈ attendance db →
        att_id r < next_rowid (att_id <$> attendance db)).
Proof.
  intros [Hnd Hfa]. split; [|split].
  - split; [by apply check_in_attendance_NoDup|].
    simpl. apply Forall_app. split; [done|].
    by apply Forall_singleton.
  - split; [by rewrite check_out_attendance_ids|].
    unfold check_out_attendance. destruct (head _) as [r|]; [|done]. simpl.
    unfold update_attendance. apply Forall_fmap.
    eapply Forall_impl; [exact Hfa|]. intros x Hx. simpl.
    destruct (decide _); [|done]. by split.
  - intros r Hr. apply next_rowid_fresh. by apply list_elem_of_fmap_2.
Qed.

Lemma update_attendance_others id now location h t :
  (∀ r, r ∈ t → att_id r ≠ id) → update_attendance id now location h t = t.
Proof.
  intros Hid. unfold update_attendance.
  induction t as [|x t IH]; [done|]. rewrite fmap_cons.
  rewrite decide_False by (apply Hid; by left).
  f_equal. apply IH. intros r Hr. apply Hid. by right.
Qed.

Lemma open_sessions_snoc employee_id t r :
  open_sessions employee_id (t ++ [r]) =
  open_sessions employee_id t ++
    (if decide (att_employee_id r = employee_id ∧ is_open r)
     then [r] else []).
Proof.
  unfold open_sessions. by rewrite filter_app.
Qed.

Lemma order_by_check_in_desc_singleton r :
  order_by_check_in_desc [r] = [r].
Proof.
  apply Permutation_singleton_r, merge_sort_Permutation.
Qed.

(** The store after a check-in and a check-out of an employee without an
    open session. *)
Lemma check_in_check_out_state t0 t1 loc0 loc1 employee_id selfie db :
  NoDup (att_id <$> attendance db) →
  (∀ r, r ∈ attendance db → att_employee_id r = employee_id →
        ¬ is_open r) →
  check_out_attendance t1 loc1 employee_id
    (check_in_attendance t0 loc0 employee_id selfie db).2 =
  ((Some (hours_between t1 t0), isoformat t1),
   set_attendance
     (attendance db ++
        [mk_attendance (next_rowid (att_id <$> attendance db)) employee_id
           t0 loc0 selfie (Some t1) loc1 (Some (hours_between t1 t0))])
     db).
Proof.
  intros Hnd Hno. pose proof Hno as Hnil%open_sessions_nil.
  set (row := mk_attendance (R:=R) (next_rowid (att_id <$> attendance db))
                employee_id t0 loc0 selfie None None None).
  assert (attendance (check_in_attendance t0 loc0 employee_id selfie db).2
          = attendance db ++ [row]) as Hatt by reflexivity.
  unfold check_out_attendance.
  rewrite Hatt, open_sessions_snoc, Hnil, decide_True by done.
  rewrite app_nil_l, order_by_check_in_desc_singleton. cbn [head].
  f_equal. unfold set_attendance. simpl. f_equal.
  unfold update_attendance. rewrite fmap_app. f_equal.
  - apply update_attendance_others. intros r Hr Hid.
    apply (list_elem_of_fmap_2 att_id) in Hr.
    apply next_rowid_fresh in Hr. simpl in Hid. lia.
  - simpl. by rewrite decide_True.
Qed.

(** X2. For an employee with no open session, a check-in at [t0] followed
    by a check-out at [t1] returns the hours between [t0] and [t1] and
    leaves the attendance table with exactly one more row: the new
    session, closed at [t1] with those hours. The employee has no open
    session afterwards, and the other tables are unchanged. *)
Theorem check_in_check_out_round_trip
    t0 t1 loc0 loc1 employee_id selfie db :
  NoDup (att_id <$> attendance db) →
  (∀ r, r ∈ attendance db → att_employee_id r = employee_id →
        ¬ is_open r) →
  ∃ db',
    check_out_attendance t1 loc1 employee_id
      (check_in_attendance t0 loc0 employee_id selfie db).2 =
    ((Some (hours_between t1 t0), isoformat t1), db') ∧
    attendance db' =
      attendance db ++
        [mk_attendance (next_rowid (att_id <$> attendance db)) employee_id
           t0 loc0 selfie (Some t1) loc1 (Some (hours_between t1 t0))] ∧
    (∀ r, r ∈ attendance db' → att_employee_id r = employee_id →
          ¬ is_open r) ∧
    employees db' = employees db ∧ clients db' = clients db ∧
    installments db' = installments db.
Proof.
  intros Hnd Hno. eexists. split; [by apply check_in_check_out_state|].
  simpl. split; [done|]. split; [|done].
  intros r [Hr|Hr%list_elem_of_singleton]%elem_of_app He.
  - by apply Hno.
  - by subst r.
Qed.

(** X3. A check-in is accepted while a session is open. After two
    check-ins at [t0] and then at a later [t1], one check-out closes the
    session of [t1] only: the session of [t0] stays open in the table. *)
Theorem second_check_in_strands_first
    t0 t1 t2 loc0 loc1 loc2 employee_id selfie0 selfie1 db :
  NoDup (att_id <$> attendance db) →
  (∀ r, r ∈ attendance db → att_employee_id r = employee_id →
        ¬ is_open r) →
  dt_ltb t0 t1 →
  let id0 := next_rowid (att_id <$> attendance db) in
  let id1 := next_rowid ((att_id <$> attendance db) ++ [id0]) in
  check_out_attendance t2 loc2 employee_id
    (check_in_attendance t1 loc1 employee_id selfie1
       (check_in_attendance t0 loc0 employee_id selfie0 db).2).2 =
  ((Some (hours_between t2 t1), isoformat t2),
   set_attendance
     (attendance db ++
        [mk_attendance id0 employee_id t0 loc0 selfie0 None None None;
         mk_attendance id1 employee_id t1 loc1 selfie1 (Some t2) loc2
           (Some (hours_between t2 t1))])
     db).
Proof.
  intros Hnd Hno Hlt id0 id1. pose proof Hno as Hnil%open_sessions_nil.
  set (row0 := mk_attendance (R:=R) id0 employee_id t0 loc0 selfie0
                 None None None).
  set (row1 := mk_attendance (R:=R) id1 employee_id t1 loc1 selfie1
                 None None None).
  assert (attendance
            (check_in_attendance t1 loc1 employee_id selfie1
               (check_in_attendance t0 loc0 employee_id selfie0 db).2).2
          = (attendance db ++ [row0]) ++ [row1]) as Hatt.
  { simpl. unfold row1, id1. by rewrite fmap_app. }
  assert (id0 < id1) as Hid01.
  { apply next_rowid_fresh. apply elem_of_app. right. by left. }
  assert (∀ r, r ∈ attendance db → att_id r < id0) as Hid0.
  { intros r Hr. apply next_rowid_fresh. by apply list_elem_of_fmap_2. }
  unfold check_out_attendance.
  rewrite Hatt, !open_sessions_snoc, Hnil, !decide_True by done.
  rewrite app_nil_l.
  destruct (head (order_by_check_in_desc ([row0] ++ [row1])))
    as [r|] eqn:Hhead;
    [|by apply head_order_by_check_in_desc_None in Hhead].
  apply head_order_by_check_in_desc in Hhead as [Hr Hmax].
  assert (r = row1) as ->.
  { apply elem_of_app in Hr as [->%list_elem_of_singleton|
                                  ->%list_elem_of_singleton]; [|done].
    exfalso. specialize (Hmax row1). simpl in Hmax.
    rewrite dt_ltb_leb in Hlt.
    destruct (dt_leb t1 t0); [done|]. apply Hmax. set_solver. }
  f_equal. unfold set_attendance. simpl. f_equal.
  unfold update_attendance. rewrite <- app_assoc, fmap_app. f_equal.
  - apply update_attendance_others. intros r' Hr' Hid.
    specialize (Hid0 r' Hr'). simpl in Hid. lia.
  - simpl. rewrite decide_False by (simpl; lia). by rewrite decide_True.
Qed.

Lemma sql_sum_snoc (vals : list (option R)) (h : R) :
  sql_sum (vals ++ [Some h]) =
  Some (add (default (of_int 0) (sql_sum vals)) h).
Proof.
  unfold sql_sum. rewrite omap_app. simpl.
  destruct (omap id vals) as [|x xs] eqn:Hv; [done|].
  simpl. by rewrite foldl_app.
Qed.

Lemma closed_since_snoc employee_id since t r :
  closed_since employee_id since (t ++ [r]) =
  closed_since employee_id since t ++
    (if decide (att_employee_id r = employee_id ∧ ¬ is_open r ∧
                dt_leb since (check_in_time r))
     then [r] else []).
Proof. unfold closed_since. by rewrite filter_app. Qed.


End AttendanceMore.

Lemma unit_rate_db_no_open_session r :
  r ∈ attendance unit_rate_db → att_employee_id r = "E1" → ¬ is_open r.
Proof.
  intros Hr _. unfold unit_rate_db in Hr. simpl in Hr.
  apply list_elem_of_singleton in Hr as ->. done.
Qed.

Lemma unit_rate_db_NoDup : NoDup (att_id <$> attendance unit_rate_db).
Proof. apply (bool_decide_unpack _). vm_compute. exact I. Qed.

Lemma attendance_wf_preserved_witness :
  attendance_wf
    (attendance
       (check_in_attendance (at_time 4 9 0) None "E1" [] float_db).2) ∧
  attendance_wf
    (attendance
       (check_out_attendance (at_time 4 9 0) None "E1" float_db).2) ∧
  (∀ r, r ∈ attendance float_db →
        att_id r < next_rowid (att_id <$> attendance float_db)).
Proof.
  apply (attendance_wf_preserved (R:=float)). split.
  - apply (bool_decide_unpack _). vm_compute. exact I.
  - unfold float_db, sample_db, sample_attendance. simpl.
    repeat constructor; unfold is_open; simpl; done.
Defined.

(** A session from 09:00 to 11:30: two and a half hours. *)
Lemma check_in_check_out_round_trip_witness :
  ∃ db',
    check_out_attendance (at_time 4 11 30) None "E1"
      (check_in_attendance (at_time 4 9 0) None "E1" [] unit_rate_db).2 =
    ((Some 2.5%float, "2026-11-04T11:30:00"), db') ∧
    length (attendance db') = 2%nat.
Proof.
  destruct (check_in_check_out_round_trip (R:=float) (at_time 4 9 0)
              (at_time 4 11 30) None None "E1" [] unit_rate_db
              unit_rate_db_NoDup unit_rate_db_no_open_session)
    as (db' & Hrun & Hatt & _).
  exists db'. split.
  - etrans; [exact Hrun|]. vm_compute. reflexivity.
  - by rewrite Hatt.
Defined.

(** Check-ins at 09:00 and 10:00, check-out at 12:00: two hours are
    returned and the 09:00 row (the second row of the table) is open. *)
Lemma second_check_in_strands_first_witness :
  let out :=
    check_out_attendance (at_time 4 12 0) None "E1"
      (check_in_attendance (at_time 4 10 0) None "E1" []
         (check_in_attendance (at_time 4 9 0) None "E1" []
            unit_rate_db).2).2 in
  out.1 = (Some 2%float, "2026-11-04T12:00:00") ∧
  attendance out.2 !! 1%nat =
    Some (mk_attendance 2 "E1" (at_time 4 9 0) None [] None None None).
Proof.
  cbv zeta.
  rewrite (second_check_in_strands_first (R:=float) (at_time 4 9 0)
             (at_time 4 10 0) (at_time 4 12 0) None None None "E1" [] []
             unit_rate_db unit_rate_db_NoDup unit_rate_db_no_open_session)
    by (vm_compute; exact I).
  split; vm_compute; reflexivity.
Defined.


(** * Employee module *)

Section Employees.
Context {R : Type} `{Arith R}.
Implicit Types (db : database R) (row : employee_row R).

Lemma set_employees_id db : set_employees (employees db) db = db.
Proof. by destruct db. Qed.

(** X5. Registration and login: registering an employee under a free id
    stores the form as given, and afterwards [login_employee] returns
    that employee for exactly the registered password (compared as
    stored, in clear) and is as before for every other id; registering
    under a taken id raises [IntegrityError] and leaves the store, the
    existing employee included, unchanged. *)
Theorem register_employee_then_login employee db :
  (employees db !! form_employee_id employee = None →
   ∃ db',
     register_employee employee db = (Returned (), db') ∧
     (∀ pw,
        login_employee (form_employee_id employee) pw db' =
        if decide (form_password employee = pw)
        then Some (form_employee_id employee, employee_of_form employee)
        else None) ∧
     (∀ id pw, id ≠ form_employee_id employee →
               login_employee id pw db' = login_employee id pw db) ∧
     attendance db' = attendance db ∧ clients db' = clients db ∧
     installments db' = installments db) ∧
  (∀ row, employees db !! form_employee_id employee = Some row →
          register_employee employee db = (Raised IntegrityError, db)).
Proof.
  split.
  - intros Hfree. unfold register_employee. rewrite Hfree.
    eexists. split; [done|]. simpl. split; [|split; [|done]].
    + intros pw. unfold login_employee. simpl.
      by rewrite lookup_insert_eq.
    + intros id pw Hne. unfold login_employee. simpl.
      by rewrite lookup_insert_ne.
  - intros row Hrow. unfold register_employee. by rewrite Hrow.
Qed.


End Employees.

Lemma register_employee_then_login_witness :
  ∃ db',
    register_employee
      (mk_employee_form "E7" "Ravi Iyer" "" "" "" "1985-05-05" "" None None
         None "Employee" "pw7" None None) float_db = (Returned (), db') ∧
    (∃ row, login_employee "E7" "pw7" db' = Some ("E7", row) ∧
            role row = "Employee" ∧ rate_per_hour row = None) ∧
    login_employee "E7" "PW7" db' = None ∧
    login_employee "E1" "secret" db' = login_employee "E1" "secret" float_db.
Proof.
  destruct (proj1 (register_employee_then_login (R:=float)
              (mk_employee_form "E7" "Ravi Iyer" "" "" "" "1985-05-05" ""
                 None None None "Employee" "pw7" None None) float_db))
    as (db' & Hreg & Hlogin & Hother & _).
  - vm_compute. reflexivity.
  - exists db'. split; [exact Hreg|]. split; [|split].
    + eexists. split; [apply (Hlogin "pw7")|]. done.
    + apply (Hlogin "PW7").
    + by apply Hother.
Defined.


(** * Client module *)

Section Clients.
Context {R : Type} `{Arith R}.
Implicit Types (db : database R) (cl : client_row R).


(** X8. After [assign_employee_to_client] for a registered employee, the
    employee is listed by [get_client_profile] under the client assigned
    and under no other client; the listing of the other employees does
    not change. *)
Theorem assigned_employee_listed employee_id client_id rate db row :
  employees db !! employee_id = Some row →
  let db' := assign_employee_to_client employee_id client_id rate db in
  (get_client_profile client_id db').2 !! employee_id =
    Some (set_assignment client_id rate row) ∧
  (∀ c, c ≠ client_id →
        (get_client_profile c db').2 !! employee_id = None) ∧
  (∀ c e, e ≠ employee_id →
          (get_client_profile c db').2 !! e =
          (get_client_profile c db).2 !! e).
Proof.
  intros Hrow db'. unfold db', get_client_profile,
    assign_employee_to_client. simpl. split; [|split].
  - apply map_lookup_filter_Some. split; [|done].
    by rewrite lookup_alter_eq, Hrow.
  - intros c Hne. apply map_lookup_filter_None. right.
    intros x. rewrite lookup_alter_eq, Hrow. simpl.
    intros [= <-]. simpl. by intros [= ->].
  - intros c e Hne. by rewrite !map_lookup_filter, lookup_alter_ne.
Qed.

End Clients.


Lemma assigned_employee_listed_witness :
  (∃ row,
     (get_client_profile "C1"
        (assign_employee_to_client "E2" "C1" 80%float float_db)).2 !! "E2"
     = Some row ∧ rate_per_hour row = Some 80%float) ∧
  (get_client_profile "C5"
     (assign_employee_to_client "E2" "C1" 80%float float_db)).2 !! "E2"
  = None.
Proof.
  destruct (assigned_employee_listed (R:=float) "E2" "C1" 80%float float_db
              (sample_employee None)) as (Hin & Hout & _).
  - vm_compute. reflexivity.
  - split.
    + eexists. split; [exact Hin|]. reflexivity.
    + by apply Hout.
Defined.

(** * Financial summary *)

Section Summary.
Context {R : Type} `{Arith R}.
Implicit Types (r : attendance_row R) (db : database R).

Lemma add_salary_error db total row :
  add_salary db total row = inl TypeError ↔
  total = inl TypeError ∨ employees db !! row.1 = None.
Proof.
  unfold add_salary. destruct total as [[]|total]; [by split; auto|].
  destruct (employees db !! row.1) as [employee|]; [|by split; auto].
  destruct (rate_per_hour employee) as [rate|];
    [destruct (truthy rate)|]; split; try done; by intros [|].
Qed.

(** The loop of [get_financial_summary] raises exactly when one of the
    grouped ids is not in [employees]. *)
Lemma foldl_add_salary_error db total rows :
  foldl (add_salary db) total rows = inl TypeError ↔
  total = inl TypeError ∨ ∃ row, row ∈ rows ∧ employees db !! row.1 = None.
Proof.
  revert total. induction rows as [|row rows IH]; intros total; simpl.
  - split; [auto|]. intros [|(? & []%elem_of_nil & _)]. done.
  - rewrite IH, add_salary_error. split.
    + intros [[|Hrow]|(row' & Hin & Hrow')]; [by left| |].
      * right. exists row. split; [by left|done].
      * right. exists row'. split; [by right|done].
    + intros [|(row' & [->|Hin]%elem_of_cons & Hrow')]; [by left; left| |].
      * by left; right.
      * right. by exists row'.
Qed.

Lemma hours_by_employee_ids since t e :
  e ∈ (hours_by_employee since t).*1 ↔
  ∃ r, r ∈ t ∧ att_employee_id r = e ∧ ¬ is_open r ∧
       dt_leb since (check_in_time r).
Proof.
  unfold hours_by_employee. rewrite <- list_fmap_compose.
  rewrite list_elem_of_fmap. split.
  - intros (g & -> & Hg). simpl.
    apply elem_of_remove_dups, list_elem_of_fmap in Hg as (r & -> & Hr).
    apply list_elem_of_filter in Hr as [[Ho Hs] Hr]. by exists r.
  - intros (r & Hr & <- & Ho & Hs). exists (att_employee_id r).
    split; [done|]. apply elem_of_remove_dups, list_elem_of_fmap_2.
    by apply list_elem_of_filter.
Qed.

Lemma financial_summary_error now db :
  get_financial_summary now db = inl TypeError ↔
  ∃ r, r ∈ attendance db ∧ ¬ is_open r ∧
       dt_leb (start_month now) (check_in_time r) ∧
       employees db !! att_employee_id r = None.
Proof.
  unfold get_financial_summary.
  destruct (foldl _ _ _) as [[]|total] eqn:Hloop.
  - apply foldl_add_salary_error in Hloop as [|(row & Hin & Hrow)];
      [done|].
    split; [intros _|done].
    assert (row.1 ∈ (hours_by_employee (start_month now)
                       (attendance db)).*1) as Hg
      by (by apply list_elem_of_fmap_2).
    apply hours_by_employee_ids in Hg as (r & Hr & He & Ho & Hs).
    exists r. by rewrite He.
  - split; [done|]. intros (r & Hr & Ho & Hs & He). exfalso.
    assert (foldl (add_salary db) (inr (of_int 0))
              (hours_by_employee (start_month now) (attendance db))
            = inl TypeError) as Hbad; [|by rewrite Hloop in Hbad].
    apply foldl_add_salary_error. right.
    assert (att_employee_id r ∈ (hours_by_employee (start_month now)
                                   (attendance db)).*1) as Hg
      by (apply hours_by_employee_ids; by exists r).
    apply list_elem_of_fmap in Hg as (row & Hrow1 & Hrow).
    exists row. split; [done|]. by rewrite <- Hrow1.
Qed.

(** X9. [get_financial_summary] raises [TypeError] exactly when some
    session closed and checked in since the first of the month belongs to
    an employee id that is not in [employees]; otherwise it returns the
    two totals. *)
Theorem financial_summary_raises now db :
  (get_financial_summary now db = inl TypeError ↔
   ∃ r, r ∈ attendance db ∧ ¬ is_open r ∧
        dt_leb (start_month now) (check_in_time r) ∧
        employees db !! att_employee_id r = None) ∧
  ((∀ r, r ∈ attendance db → ¬ is_open r →
         dt_leb (start_month now) (check_in_time r) →
         is_Some (employees db !! att_employee_id r)) →
   ∃ total_outstanding total_salary,
     get_financial_summary now db =
     inr (total_outstanding, total_salary)).
Proof.
  split; [apply financial_summary_error|].
  intros Hreg.
  destruct (get_financial_summary now db) as [[]|[to ts]] eqn:Hsum;
    [|by eauto].
  apply financial_summary_error in Hsum as (r & Hr & Ho & Hs & He).
  destruct (Hreg r Hr Ho Hs) as [x Hx]. by rewrite He in Hx.
Qed.

Lemma or_zero_default (x : option R) :
  or_zero x = or_zero (Some (default (of_int 0) x)).
Proof.
  destruct x as [v|]; [done|]. simpl. by destruct (truthy (of_int 0)).
Qed.

Lemma group_hours_closed_since e since (t : list (attendance_row R)) :
  filter (λ r, att_employee_id r = e) (closed_rows_since since t) =
  closed_since e since t.
Proof.
  unfold closed_rows_since, closed_since. by rewrite list_filter_filter.
Qed.

Lemma add_salary_month now db total e :
  is_Some (employees db !! e) →
  add_salary db (inr total)
    (e, sql_sum (working_hours <$>
                   closed_since e (start_month now) (attendance db))) =
  inr (add_month_salary now db total e).
Proof.
  intros [row Hrow]. unfold add_salary, add_month_salary. simpl.
  rewrite Hrow. simpl.
  destruct (rate_per_hour row) as [rate|] eqn:Hrate.
  - rewrite (calculate_salary_rate now e db row rate Hrow Hrate).
    cbv zeta. rewrite (or_zero_default (sql_sum _)).
    by destruct (truthy rate).
  - assert (calculate_salary now e db = None) as ->; [|done].
    apply calculate_salary_None. right. by exists row.
Qed.


End Summary.

(** Row 1 of the sample store is a closed session of E1; with E1 erased
    from [employees] the summary raises, and with the sample employees it
    returns its two totals. *)
Lemma financial_summary_raises_witness :
  get_financial_summary (at_time 3 18 30)
    (set_employees ∅ float_db) = inl TypeError ∧
  get_financial_summary (at_time 3 18 30) float_db =
    inr (5000%float, 250%float).
Proof.
  split.
  - apply (proj1 (financial_summary_raises (R:=float) (at_time 3 18 30)
                    (set_employees ∅ float_db))).
    exists (mk_attendance 1 "E1" (at_time 3 9 0) None []
              (Some (at_time 3 11 30)) None (Some 2.5%float)).
    split; [vm_compute; set_solver|]. split; [by intros [=]|].
    split; [vm_compute; exact I|]. vm_compute. reflexivity.
  - vm_compute. reflexivity.
Defined.


(** * The page "View All Attendance" *)

Section ViewAll.
Context {R : Type} `{Arith R}.
Implicit Types (a : attendance_row R) (v : attendance_view R)
  (db : database R).

#[local] Instance view_desc_total : Total (@view_desc R).
Proof.
  intros x y. unfold view_desc.
  destruct (dt_leb_total (view_check_in_time x) (view_check_in_time y));
    auto.
Qed.

#[local] Instance view_desc_trans : Transitive (@view_desc R).
Proof.
  intros x y z Hxy Hyz. unfold view_desc in *. by eapply dt_leb_trans.
Qed.

Lemma view_all_attendance_elem db v :
  v ∈ view_all_attendance db ↔
  ∃ a, a ∈ attendance db ∧ join_employee db a = Some v.
Proof.
  unfold view_all_attendance.
  rewrite (merge_sort_Permutation view_desc). apply list_elem_of_omap.
Qed.

Lemma StronglySorted_lookup_lt {A} (Rel : relation A) l i j x y :
  StronglySorted Rel l → (i < j)%nat →
  l !! i = Some x → l !! j = Some y → Rel x y.
Proof.
  intros Hs. revert i j. induction Hs as [|z l Hs IH Hall]; intros i j Hij.
  - by rewrite lookup_nil.
  - destruct j as [|j]; [lia|]. destruct i as [|i]; simpl.
    + intros [= ->] Hy. rewrite Forall_forall in Hall.
      apply Hall. by eapply list_elem_of_lookup_2.
    + apply IH. lia.
Qed.

Lemma length_omap_join db (t : list (attendance_row R)) :
  length (omap (join_employee db) t) =
  length (filter (λ a, is_Some (employees db !! att_employee_id a)) t).
Proof.
  induction t as [|a t IH]; [done|]. rewrite filter_cons.
  cbn [omap list_omap]. unfold join_employee at 1.
  destruct (decide (is_Some (employees db !! att_employee_id a)))
    as [[e He]|Hn].
  - rewrite He. simpl. by rewrite IH.
  - destruct (employees db !! att_employee_id a) as [e|] eqn:He;
      [by destruct Hn|]. done.
Qed.

(** X11. The records of the page "View All Attendance" are the
    attendance rows of registered employees, each with the employee's full
    name and each once, the latest check-in first; a session of an
    employee id that is not in [employees] is never listed. *)
Theorem view_all_attendance_sorted db :
  (∀ i j x y, (i < j)%nat →
     view_all_attendance db !! i = Some x →
     view_all_attendance db !! j = Some y →
     dt_leb (view_check_in_time y) (view_check_in_time x)) ∧
  view_all_attendance db ≡ₚ omap (join_employee db) (attendance db) ∧
  (∀ v, v ∈ view_all_attendance db ↔
        ∃ a e, a ∈ attendance db ∧
               employees db !! att_employee_id a = Some e ∧
               v = mk_attendance_view (att_employee_id a) (full_name e)
                     (check_in_time a) (check_in_location a)
                     (check_out_time a) (check_out_location a)
                     (working_hours a)) ∧
  length (view_all_attendance db) =
    length (filter (λ a, is_Some (employees db !! att_employee_id a))
              (attendance db)).
Proof.
  split; [|split; [|split]].
  - intros i j x y Hij Hx Hy.
    pose proof (StronglySorted_merge_sort view_desc
                  (omap (join_employee db) (attendance db))) as Hs.
    apply (StronglySorted_lookup_lt view_desc _ i j x y Hs Hij Hx Hy).
  - apply merge_sort_Permutation.
  - intros v. rewrite view_all_attendance_elem. split.
    + intros (a & Ha & Hj). unfold join_employee in Hj.
      destruct (employees db !! att_employee_id a) as [e|] eqn:He;
        [|done].
      simpl in Hj. exists a, e. by simplify_eq.
    + intros (a & e & Ha & He & ->). exists a. split; [done|].
      unfold join_employee. by rewrite He.
  - unfold view_all_attendance.
    rewrite (merge_sort_Permutation view_desc). apply length_omap_join.
Qed.

(** X12. [check_in_attendance] and [check_out_attendance] do not look the
    employee up. A session checked in and out under an id that is not in
    [employees] is stored: [get_employee_profile] returns no employee
    record but lists the session, the page "View All Attendance" does not
    list it, and [get_financial_summary] raises [TypeError] for every
    [now] whose month began at or before the check-in. *)
Theorem unregistered_session t0 t1 now loc0 loc1 employee_id selfie db :
  employees db !! employee_id = None →
  NoDup (att_id <$> attendance db) →
  (∀ r, r ∈ attendance db → att_employee_id r = employee_id →
        ¬ is_open r) →
  let db' :=
    (check_out_attendance t1 loc1 employee_id
       (check_in_attendance t0 loc0 employee_id selfie db).2).2 in
  let session :=
    mk_attendance (next_rowid (att_id <$> attendance db)) employee_id
      t0 loc0 selfie (Some t1) loc1 (Some (hours_between t1 t0)) in
  get_employee_profile employee_id db' =
    (None, (get_employee_profile employee_id db).2 ++ [session]) ∧
  (∀ v, v ∈ view_all_attendance db' → view_employee_id v ≠ employee_id) ∧
  (dt_leb (start_month now) t0 →
   get_financial_summary now db' = inl TypeError).
Proof.
  intros Hnone Hnd Hno db' session. unfold db'.
  rewrite check_in_check_out_state by done. cbn [snd].
  fold session. split; [|split].
  - unfold get_employee_profile. simpl. rewrite Hnone. f_equal.
    by rewrite filter_app, filter_cons_True, filter_nil.
  - intros v (a & Ha & Hj)%view_all_attendance_elem Hv.
    unfold join_employee in Hj. simpl in Hj.
    destruct (employees db !! att_employee_id a) as [e|] eqn:He; [|done].
    simpl in Hj. injection Hj as <-. simpl in Hv.
    rewrite Hv in He. congruence.
  - intros Hle. apply financial_summary_error. exists session.
    split; [simpl; set_solver|]. split; [by intros [=]|]. by split.
Qed.

End ViewAll.

Lemma view_all_attendance_sorted_witness :
  (view_check_in_time <$> view_all_attendance float_db) =
    [at_time 3 16 0; at_time 3 14 0; at_time 3 13 0; at_time 3 9 0] ∧
  length (view_all_attendance (set_employees ∅ float_db)) = 0%nat.
Proof.
  destruct (view_all_attendance_sorted (R:=float)
              (set_employees ∅ float_db)) as (_ & _ & _ & Hlen).
  split; [vm_compute; reflexivity|]. rewrite Hlen. reflexivity.
Defined.

(** A session of the unknown id E9 on 4 November breaks the summary of
    that month. *)
Lemma unregistered_session_witness :
  (get_employee_profile "E9"
     (check_out_attendance (at_time 4 11 30) None "E9"
        (check_in_attendance (at_time 4 9 0) None "E9" []
           float_db).2).2).1 = None ∧
  get_financial_summary (at_time 4 18 0)
    (check_out_attendance (at_time 4 11 30) None "E9"
       (check_in_attendance (at_time 4 9 0) None "E9" [] float_db).2).2 =
  inl TypeError.
Proof.
  destruct (unregistered_session (R:=float) (at_time 4 9 0)
              (at_time 4 11 30) (at_time 4 18 0) None None "E9" []
              float_db) as (Hp & _ & Hsum).
  - vm_compute. reflexivity.
  - apply (bool_decide_unpack _). vm_compute. exact I.
  - intros r Hr He.
    unfold float_db, sample_db, sample_attendance in Hr. simpl in Hr.
    repeat (apply elem_of_cons in Hr as [->|Hr]; [discriminate He|]).
    by apply elem_of_nil in Hr.
  - split.
    + by rewrite Hp.
    + apply Hsum. vm_compute. exact I.
Defined.

(** * Pages and the bootstrap script *)

(** Membership in an explicit list, case by case. *)
Ltac elem_cases H :=
  repeat (apply elem_of_cons in H as [H|H]; [try (by simplify_eq)|]);
  try (by apply elem_of_nil in H).

Ltac elem_here := repeat first [by left | right].

Section Pages.
Context {R : Type} `{Arith R}.
Implicit Types (db : database R) (s : session).

Lemma login_employee_Some employee_id pw db id row :
  login_employee employee_id pw db = Some (id, row) ↔
  id = employee_id ∧ employees db !! employee_id = Some row ∧
  password row = pw.
Proof.
  unfold login_employee.
  destruct (employees db !! employee_id) as [e|]; [|by split; [|intros (?&?&?)]].
  destruct (decide (password e = pw)) as [Hpw|Hpw].
  - split; [by intros [= <- <-]|]. by intros (-> & [= ->] & _).
  - split; [done|]. intros (_ & [= ->] & ?). done.
Qed.



(** X15. The bootstrap script: [register_ceo] under a free id stores an
    employee with role CEO, no client and no rate, the photos being the
    bytes of the files named ([None] for an empty or unknown path); this
    employee logs in with the password typed and gets the CEO menu, and
    [calculate_salary] returns [None] for it. Under a taken id the error
    is printed and the store is unchanged. *)
Theorem register_ceo_then_login fs a db :
  (employees db !! ceo_employee_id a = None →
   ∃ db' row,
     register_ceo fs a db = (CeoRegistered, db') ∧
     login_employee (ceo_employee_id a) (ceo_password a) db' =
       Some (ceo_employee_id a, row) ∧
     role row = "CEO" ∧ rate_per_hour row = None ∧
     assigned_client_id row = None ∧
     photo row = read_file_as_bytes fs (ceo_photo_path a) ∧
     menu (login_page (ceo_employee_id a) (ceo_password a) db'
             LoggedOut).1 = ceo_menu ∧
     (∀ now, calculate_salary now (ceo_employee_id a) db' = None) ∧
     (∀ id, id ≠ ceo_employee_id a →
            employees db' !! id = employees db !! id)) ∧
  (∀ row, employees db !! ceo_employee_id a = Some row →
          register_ceo fs a db = (CeoError IntegrityError, db)) ∧
  read_file_as_bytes fs "" = None ∧
  (∀ path, fs !! path = None → read_file_as_bytes fs path = None).
Proof.
  split; [|split; [|split]].
  - intros Hfree. unfold register_ceo. rewrite Hfree.
    eexists _, _. split; [done|].
    assert (∀ row : employee_row R,
              employees (set_employees
                           (<[ceo_employee_id a := row]> (employees db)) db)
                !! ceo_employee_id a = Some row) as Hrow
      by (intros row; simpl; apply lookup_insert_eq).
    match goal with |- login_employee ?i ?p ?d = Some (_, ?r) ∧ _ =>
      assert (login_employee i p d = Some (i, r)) as Hlogin
    end.
    { apply login_employee_Some. split; [done|]. split; [apply Hrow|done]. }
    split; [exact Hlogin|].
    split; [done|]. split; [done|]. split; [done|]. split; [done|].
    split; [|split].
    + unfold login_page. by rewrite Hlogin.
    + intros now. apply calculate_salary_None. right.
      eexists. split; [apply Hrow|done].
    + intros id Hne. simpl. by rewrite lookup_insert_ne.
  - intros row Hrow. unfold register_ceo. by rewrite Hrow.
  - done.
  - intros path Hpath. unfold read_file_as_bytes.
    by destruct (decide (path = "")).
Qed.

End Pages.



Lemma register_ceo_then_login_witness :
  ∃ db' row,
    register_ceo (<["me.png" := [Byte.x78]]> ∅)
      (mk_ceo_answers "CEO1" "Meera Nair" "" "" "" "1975-01-01" ""
         "me.png" "" "gone.png" "top") float_db = (CeoRegistered, db') ∧
    login_employee "CEO1" "top" db' = Some ("CEO1", row) ∧
    role row = "CEO" ∧ photo row = Some [Byte.x78] ∧
    aadhar_photo row = None ∧ signature_photo row = None.
Proof.
  destruct (proj1 (register_ceo_then_login (R:=float)
              (<["me.png" := [Byte.x78]]> ∅)
              (mk_ceo_answers "CEO1" "Meera Nair" "" "" "" "1975-01-01" ""
                 "me.png" "" "gone.png" "top") float_db))
    as (db' & row & Hreg & Hlogin & Hrole & _).
  - vm_compute. reflexivity.
  - exists db', row. split; [exact Hreg|]. split; [exact Hlogin|].
    split; [exact Hrole|].
    vm_compute in Hreg. injection Hreg as <-.
    vm_compute in Hlogin. injection Hlogin as <-.
    repeat split; vm_compute; reflexivity.
Defined.

(** * Composition across the modules *)

Section Composition.
Context {R : Type} `{Arith R}.
Implicit Types (db : database R).

Lemma closed_rows_since_snoc_open since (t : list (attendance_row R)) r :
  is_open r →
  closed_rows_since since (t ++ [r]) = closed_rows_since since t.
Proof.
  intros Ho. unfold closed_rows_since.
  rewrite filter_app, filter_cons_False, filter_nil, app_nil_r; [done|].
  by intros [? _].
Qed.

(** X16. An open session counts nowhere: a check-in, of any employee,
    changes neither the result of [calculate_salary] for any employee nor
    the result of [get_financial_summary]. *)
Theorem check_in_changes_no_amount now t location employee_id selfie db :
  (∀ e, calculate_salary now e
          (check_in_attendance t location employee_id selfie db).2 =
        calculate_salary now e db) ∧
  get_financial_summary now
    (check_in_attendance t location employee_id selfie db).2 =
  get_financial_summary now db.
Proof.
  split.
  - intros e. unfold calculate_salary. simpl.
    rewrite closed_since_snoc, decide_False, app_nil_r; [done|].
    simpl. intros (_ & Ho & _). by apply Ho.
  - unfold get_financial_summary, hours_by_employee. simpl.
    by rewrite closed_rows_since_snoc_open.
Qed.

(** X17. The ledger stays consistent under [record_installment], for a
    known or an unknown client id, and under [register_client] when no
    installment was recorded under the id before (and trivially when the
    id is taken). *)
Theorem ledger_ok_preserved now client_id amount client db :
  ledger_ok db →
  ledger_ok (record_installment now client_id amount db).2 ∧
  ((∀ i, i ∈ installments db → ins_client_id i ≠ form_client_id client) →
   ledger_ok (register_client client db).2) ∧
  (is_Some (clients db !! form_client_id client) →
   ledger_ok (register_client client db).2).
Proof.
  intros Hok. split; [|split].
  - destruct (clients db !! client_id) as [cl|] eqn:Hc.
    + rewrite (record_installment_present now client_id amount db cl Hc).
      intros c cl'. simpl. rewrite filter_app, fmap_app, foldl_app.
      destruct (decide (c = client_id)) as [->|Hne].
      * rewrite lookup_insert_eq. intros [= <-]. simpl.
        rewrite filter_cons_True, filter_nil by done. simpl.
        by rewrite <- (Hok client_id cl Hc).
      * rewrite lookup_insert_ne by done. intros Hcl.
        rewrite filter_cons_False, filter_nil by (simpl; congruence).
        simpl. by apply Hok.
    + rewrite (record_installment_absent now client_id amount db Hc).
      intros c cl'. simpl. intros Hcl.
      rewrite filter_app, filter_cons_False, filter_nil, app_nil_r.
      * by apply Hok.
      * simpl. intros ->. by rewrite Hc in Hcl.
  - intros Hfresh. unfold register_client.
    destruct (clients db !! form_client_id client) as [cl|] eqn:Hc;
      [done|].
    intros c cl'. simpl.
    destruct (decide (c = form_client_id client)) as [->|Hne].
    + rewrite lookup_insert_eq. intros [= <-]. simpl.
      assert (filter (λ i, ins_client_id i = form_client_id client)
                (installments db) = []) as ->; [|done].
      induction (installments db) as [|i t IH] in Hfresh |- *; [done|].
      rewrite filter_cons_False by (apply Hfresh; by left).
      apply IH. intros j Hj. apply Hfresh. by right.
    + rewrite lookup_insert_ne by done. by apply Hok.
  - intros [cl Hc]. unfold register_client. by rewrite Hc.
Qed.

(** X18. [record_installment] under an id that is not yet a client,
    followed by [register_client] of that id: the new client owes its
    whole bill, the earlier payment not deducted, while
    [get_client_profile] lists that payment among its installments. *)
Theorem installment_before_registration now amount client db :
  clients db !! form_client_id client = None →
  let db1 :=
    (record_installment now (form_client_id client) amount db).2 in
  ∃ db2 cl,
    register_client client db1 = (Returned (), db2) ∧
    (get_client_profile (form_client_id client) db2).1 =
      (Some cl,
       (get_client_profile (form_client_id client) db).1.2 ++
         [mk_installment (next_rowid (ins_id <$> installments db))
            (form_client_id client) amount now]) ∧
    outstanding cl = form_total_bill client ∧
    total_bill cl = form_total_bill client.
Proof.
  intros Hc db1. unfold db1.
  rewrite (record_installment_absent now _ amount db Hc).
  unfold register_client. simpl. rewrite Hc.
  eexists _, _. split; [done|].
  unfold get_client_profile. simpl. rewrite lookup_insert_eq.
  split.
  - by rewrite filter_app, filter_cons_True, filter_nil.
  - done.
Qed.

End Composition.

Lemma ledger_ok_preserved_witness :
  ledger_ok
    (record_installment (at_time 3 10 0) "C1" 1000%float float_db).2 ∧
  ledger_ok
    (register_client
       (mk_client_form "C2" "Globex" "" "" "" "" "" "" "" "NON-GEM"
          1000%float) float_db).2.
Proof.
  assert (ledger_ok float_db) as Hok.
  { intros c cl Hcl. unfold float_db, sample_db in Hcl. simpl in Hcl.
    apply lookup_insert_Some in Hcl as [[<- <-]|[_ Hcl]]; [done|].
    by rewrite lookup_empty in Hcl. }
  destruct (ledger_ok_preserved (R:=float) (at_time 3 10 0) "C1" 1000%float
              (mk_client_form "C2" "Globex" "" "" "" "" "" "" "" "NON-GEM"
                 1000%float) float_db Hok) as (Hrec & Hreg & _).
  split; [exact Hrec|]. apply Hreg.
  intros i Hi. by apply elem_of_nil in Hi.
Defined.

(** 50 are paid under the id C2 before C2 is registered with a bill of
    1000: C2 owes 1000 and its profile shows the payment of 50. *)
Lemma installment_before_registration_witness :
  ∃ db2 cl,
    register_client
      (mk_client_form "C2" "Globex" "" "" "" "" "" "" "" "NON-GEM"
         1000%float)
      (record_installment (at_time 3 10 0) "C2" 50%float float_db).2 =
    (Returned (), db2) ∧
    (get_client_profile "C2" db2).1 =
      (Some cl, [mk_installment 1 "C2" 50%float (at_time 3 10 0)]) ∧
    outstanding cl = 1000%float.
Proof.
  destruct (installment_before_registration (R:=float) (at_time 3 10 0)
              50%float
              (mk_client_form "C2" "Globex" "" "" "" "" "" "" "" "NON-GEM"
                 1000%float) float_db)
    as (db2 & cl & Hreg & Hprof & Hout & _).
  - vm_compute. reflexivity.
  - exists db2, cl. split; [exact Hreg|]. split; [|exact Hout].
    etrans; [exact Hprof|]. reflexivity.
Defined.
